(** * Single-variant scan of limix: [limix/qtl/_st_scan.py]

    The module is an orchestration layer: it resolves the likelihood,
    conforms the dataset, checks finiteness, factorizes the covariance and
    hands over to the mixed-model routines of glimix_core.  The embedding
    keeps that shape.  A Python function becomes a program tree ([prog])
    whose nodes are the calls it makes to its collaborators, in source
    order; a collaborator is whatever answers those calls while threading
    its own heap ([run]).  What the function does itself (name lookup, tuple
    handling, raising, the result factory) is computed by the tree. *)

From Stdlib Require Import ZArith List String Ascii Bool Lia.
Import ListNotations.
Local Open Scope string_scope.
Local Open Scope list_scope.

(** ** Python values that cross the interface *)

(** Identity of an object owned by a collaborator: an ndarray, a DataFrame,
    a DataArray, an [LMM], a [FastScanner] and so on. *)
Definition ref := positive.

(** A Python float, as the bit pattern of its IEEE-754 binary64. *)
Definition float64 := Z.

(** The literal [1.0] of line 250. *)
Definition float_1_0 : float64 := 0x3FF0000000000000%Z.

(** Exponent field of a binary64; all ones for NaN and the infinities. *)
Definition exponent (x : float64) : Z := Z.land (Z.shiftr x 52) 0x7FF.
Definition isfinite (x : float64) : bool := negb (exponent x =? 0x7FF)%Z.

(** An element of the [lik] argument: a [str], or any object that has no
    [lower] attribute (the trial counts of a Binomial likelihood, a number,
    [None]).  Objects other than [str] that do have a [lower] method, such
    as [bytes], are outside this type. *)
Inductive pyobj :=
| PyStr (s : string)
| PyObj (r : ref).

(** The [lik] argument as the caller passes it. *)
Inductive lik_arg :=
| LikObj (o : pyobj)
| LikTuple (l : list pyobj)
| LikList (l : list pyobj).

(** [lik] after line 169: the lower-cased name followed by [lik[1:]]. *)
Definition lik_tuple := (string * list pyobj)%type.

(** Exceptions raised by collaborators are opaque to this module. *)
Definition foreign := string.

Inductive exn :=
| NameError (name : string)
| AttributeError (attr : string)
| IndexError
| TypeError
| ValueError (msg : string)
| InvalidLikelihoodError (name : string)
| Propagated (e : foreign).

(** ** [str.lower] *)

(** Strings are byte strings; [lower] folds the ASCII capitals and leaves
    every other byte alone.  The allowed likelihood names are ASCII without
    the letter k, and no non-ASCII character lower-cases to one of their
    letters, so membership of the lower-cased name in the allowed set does
    not depend on the treatment of other bytes. *)
Definition lower_ascii (c : ascii) : ascii :=
  let n := nat_of_ascii c in
  if (65 <=? n)%nat && (n <=? 90)%nat then ascii_of_nat (n + 32) else c.

Fixpoint lower (s : string) : string :=
  match s with
  | EmptyString => EmptyString
  | String c s' => String (lower_ascii c) (lower s')
  end.

(** ** [limix/_data/_conf.py] *)

(** [CONF["likelihoods"]]. *)
Definition CONF_likelihoods : list string :=
  ["normal"; "bernoulli"; "probit"; "binomial"; "poisson"].

Definition mem (s : string) (l : list string) : bool :=
  existsb (String.eqb s) l.

(** ** The collaborators' interface *)

(** [data] of line 175, read at lines 177 to 180. *)
Record dataset := {
  data_y : ref;
  data_M : ref;
  data_G : ref;
  data_K : option ref
}.

(** One constructor per call site into numpy_sugar, glimix_core,
    pandas/xarray and the limix modules [_data] and [qc._lik]. *)
Inductive call :=
| conform_dataset (y : ref) (M : option ref) (G : ref) (K : option ref)
| is_all_finite (a : ref)
| economic_qs (K : ref)
| normalise_extreme_values (y : ref) (lik : lik_tuple)
| get_covariate (M : ref)
| get_candidate (G : ref)
| get_values (a : ref)
| get_data (a : ref)
| ravel (a : ref)
| LMM (y M : ref) (QS : option ref)
| LMM_fit (lmm : ref) (verbose : bool)
| LMM_lml (lmm : ref)
| LMM_beta (lmm : ref)
| LMM_v1 (lmm : ref)
| LMM_v0 (lmm : ref)
| LMM_get_fast_scanner (lmm : ref)
| GLMMExpFam (y : ref) (lik : lik_tuple) (M : ref) (QS : option ref)
| GLMMExpFam_fit (glmm : ref) (verbose : bool)
| site_eta (glmm : ref)
| site_tau (glmm : ref)
| GLMMNormal (eta tau M : ref) (QS : option ref)
| GLMMNormal_fit (gnormal : ref) (verbose : bool)
| GLMMNormal_beta (gnormal : ref)
| GLMMNormal_v1 (gnormal : ref)
| GLMMNormal_v0 (gnormal : ref)
| GLMMNormal_get_fast_scanner (gnormal : ref)
| set_scale (flmm : ref) (scale : float64)
| null_lml (flmm : ref)
| fast_scan (flmm : ref) (G : ref) (verbose : bool).

(** What each call answers when it does not raise. *)
Definition ret_type (c : call) : Type :=
  match c with
  | conform_dataset _ _ _ _ => dataset
  | is_all_finite _ => bool
  | LMM_fit _ _ | GLMMExpFam_fit _ _ | GLMMNormal_fit _ _ | set_scale _ _ => unit
  | LMM_lml _ | LMM_v1 _ | LMM_v0 _ | GLMMNormal_v1 _ | GLMMNormal_v0 _
  | null_lml _ => float64
  | fast_scan _ _ _ => (list float64 * list float64)%type
  | _ => ref
  end.

(** Progress display: [session_block], [session_line], [print] and
    [sys.stdout.flush]. *)
Inductive display :=
| BlockEnter (name : string)
| BlockExit (name : string)
| LineEnter (desc : string)
| LineExit (desc : string)
| Flush
| Print.

(** ** Programs *)

Inductive prog (A : Type) : Type :=
| Ret (a : A)
| Raise (e : exn)
| Call (c : call) (k : foreign + ret_type c -> prog A)
| Display (d : display) (k : prog A).

Arguments Ret {A} a.
Arguments Raise {A} e.
Arguments Call {A} c k.
Arguments Display {A} d k.

Fixpoint bind {A B : Type} (p : prog A) (f : A -> prog B) : prog B :=
  match p with
  | Ret a => f a
  | Raise e => Raise e
  | Call c k => Call c (fun r => bind (k r) f)
  | Display d k => Display d (bind k f)
  end.

Notation "x <- p ;; q" := (bind p (fun x => q))
  (at level 61, p at next level, right associativity).
Notation "p ;; q" := (bind p (fun _ => q))
  (at level 61, right associativity).

(** A call whose exception, if any, propagates. *)
Definition invoke (c : call) : prog (ret_type c) :=
  Call c (fun r => match r with
                   | inl e => Raise (Propagated e)
                   | inr x => Ret x
                   end).

Definition show (d : display) : prog unit := Display d (Ret tt).

(** [p] followed by [d] on every exit, normal or exceptional: the
    [__exit__] of a context manager that does not swallow exceptions. *)
Fixpoint and_finally {A : Type} (p : prog A) (d : display) : prog A :=
  match p with
  | Ret a => Display d (Ret a)
  | Raise e => Display d (Raise e)
  | Call c k => Call c (fun r => and_finally (k r) d)
  | Display d' k => Display d' (and_finally k d)
  end.

(** ** The module namespace *)

(** Names bound when [_st_scan.py] has been imported: the imports of lines
    1 to 8 and the three [def]s. *)
Definition module_globals : list string :=
  ["sys"; "session_line"; "conform_dataset"; "session_block";
   "assert_likelihood"; "normalise_extreme_values"; "ScanResultFactory";
   "st_scan"; "_perform_lmm"; "_perform_glmm"].

(** The builtins the module refers to. *)
Definition builtins : list string :=
  ["isinstance"; "tuple"; "list"; "print"; "enumerate"; "zip"; "ValueError"].

(** [LOAD_GLOBAL]: look the name up in the module namespace, then in the
    builtins; [NameError] when it is in neither. *)
Definition load_global (name : string) : prog unit :=
  if mem name module_globals || mem name builtins
  then Ret tt
  else Raise (NameError name).

(** ** Collaborators of this repository that are not under src/ *)

(** Modelled from the spec: [assert_likelihood] of [limix/_data] is not
    under src/.  Section 4.2: it "verifies membership in the fixed
    likelihood set"; section 7: an unknown name is an
    [InvalidLikelihoodError].  The set itself is [CONF_likelihoods]. *)
Definition assert_likelihood (likname : string) : prog unit :=
  if mem likname CONF_likelihoods
  then Ret tt
  else Raise (InvalidLikelihoodError likname).

(** Modelled from the spec: [session_block] and [session_line] of
    [limix/_display] are not under src/.  Section 5: progress reporting is
    advisory, so they let exceptions through.  That they display on entry
    and on exit unless disabled is an assumption of this model; no outcome
    and no call depends on it. *)
Definition session_block {A : Type} (name : string) (disable : bool)
    (body : prog A) : prog A :=
  if disable then body
  else Display (BlockEnter name) (and_finally body (BlockExit name)).

Definition session_line {A : Type} (desc : string) (disable : bool)
    (body : prog A) : prog A :=
  if disable then body
  else Display (LineEnter desc) (and_finally body (LineExit desc)).

(** Modelled from the spec: the result factory of [limix/qtl/_result.py]
    is not under src/.  Section 3 gives the report: the likelihood, the
    covariate and candidate labels, the null model state and the ordered
    candidate results.  [set_null] and [add_test] take their arguments in
    the order of the call sites at lines 222, 228, 253 and 258. *)
Record NullModelState := {
  log_marginal_likelihood : float64;
  beta : ref;
  v1 : float64;
  v0 : float64
}.

Record CandidateResult := {
  index : nat;
  effect_size : float64;
  alt_log_marginal_likelihood : float64
}.

Record ScanReport := {
  likelihood : lik_tuple;
  covariate_labels : ref;
  candidate_labels : ref;
  null : option NullModelState;
  candidates : list CandidateResult
}.

Definition ScanResultFactory (lik : lik_tuple) (covariates candidates : ref)
    : ScanReport :=
  {| likelihood := lik; covariate_labels := covariates;
     candidate_labels := candidates; null := None; candidates := [] |}.

Definition set_null (r : ScanReport) (lml : float64) (b : ref)
    (var1 var0 : float64) : ScanReport :=
  {| likelihood := likelihood r; covariate_labels := covariate_labels r;
     candidate_labels := candidate_labels r;
     null := Some {| log_marginal_likelihood := lml; beta := b;
                     v1 := var1; v0 := var0 |};
     candidates := candidates r |}.

Definition add_test (r : ScanReport) (i : nat) (effsize alt_lml : float64)
    : ScanReport :=
  {| likelihood := likelihood r; covariate_labels := covariate_labels r;
     candidate_labels := candidate_labels r; null := null r;
     candidates := candidates r ++
       [{| index := i; effect_size := effsize;
           alt_log_marginal_likelihood := alt_lml |}] |}.

Definition create (r : ScanReport) : ScanReport := r.

(** ** Builtins used by the loops of lines 227 and 257 *)

Definition zip {A B : Type} (l : list A) (l' : list B) : list (A * B) :=
  combine l l'.

Fixpoint enumerate_from {A : Type} (i : nat) (l : list A) : list (nat * A) :=
  match l with
  | [] => []
  | x :: l' => (i, x) :: enumerate_from (S i) l'
  end.

Definition enumerate {A : Type} (l : list A) : list (nat * A) :=
  enumerate_from 0 l.

(** [for i, data in rows: r.add_test(i, data[1], data[0])]. *)
Definition add_tests (r : ScanReport)
    (rows : list (nat * (float64 * float64))) : ScanReport :=
  fold_left (fun r row => add_test r (fst row) (snd (snd row)) (fst (snd row)))
            rows r.

(** ** [_perform_lmm], lines 210 to 230 *)

Definition _perform_lmm (r : ScanReport) (y M : ref) (QS : option ref)
    (G : ref) (verbose : bool) : prog ScanReport :=
  Mv <- invoke (get_values M) ;;
  lmm <- invoke (LMM y Mv QS) ;;
  invoke (LMM_fit lmm verbose) ;;
  load_global "sys" ;;
  show Flush ;;
  lml <- invoke (LMM_lml lmm) ;;
  b <- invoke (LMM_beta lmm) ;;
  var1 <- invoke (LMM_v1 lmm) ;;
  var0 <- invoke (LMM_v0 lmm) ;;
  let r := set_null r lml b var1 var0 in
  flmm <- invoke (LMM_get_fast_scanner lmm) ;;
  Gd <- invoke (get_data G) ;;
  scan <- invoke (fast_scan flmm Gd verbose) ;;
  load_global "enumerate" ;;
  load_global "zip" ;;
  let r := add_tests r (enumerate (zip (fst scan) (snd scan))) in
  Ret (create r).

(** ** [_perform_glmm], lines 233 to 260 *)

Definition _perform_glmm (r : ScanReport) (y : ref) (lik : lik_tuple)
    (M : ref) (K QS : option ref) (G : ref) (verbose : bool)
    : prog ScanReport :=
  yr <- invoke (ravel y) ;;
  Mv <- invoke (get_values M) ;;
  glmm <- invoke (GLMMExpFam yr lik Mv QS) ;;
  invoke (GLMMExpFam_fit glmm verbose) ;;
  load_global "sys" ;;
  show Flush ;;
  eta <- invoke (site_eta glmm) ;;
  tau <- invoke (site_tau glmm) ;;
  Mv' <- invoke (get_values M) ;;
  gnormal <- invoke (GLMMNormal eta tau Mv' QS) ;;
  invoke (GLMMNormal_fit gnormal verbose) ;;
  b <- invoke (GLMMNormal_beta gnormal) ;;
  flmm <- invoke (GLMMNormal_get_fast_scanner gnormal) ;;
  invoke (set_scale flmm float_1_0) ;;
  lml <- invoke (null_lml flmm) ;;
  var1 <- invoke (GLMMNormal_v1 gnormal) ;;
  var0 <- invoke (GLMMNormal_v0 gnormal) ;;
  let r := set_null r lml b var1 var0 in
  Gv <- invoke (get_values G) ;;
  scan <- invoke (fast_scan flmm Gv verbose) ;;
  load_global "enumerate" ;;
  load_global "zip" ;;
  let r := add_tests r (enumerate (zip (fst scan) (snd scan))) in
  Ret (create r).

(** ** [st_scan], lines 11 to 207 *)

Inductive seq_kind := KTuple | KList.

(** Lines 165 and 166: anything that is not a tuple or a list is wrapped
    into a one-element tuple. *)
Definition as_sequence (lik : lik_arg) : seq_kind * list pyobj :=
  match lik with
  | LikObj o => (KTuple, [o])
  | LikTuple l => (KTuple, l)
  | LikList l => (KList, l)
  end.

(** [lik[0]]. *)
Definition getitem0 (l : list pyobj) : prog pyobj :=
  match l with
  | [] => Raise IndexError
  | o :: _ => Ret o
  end.

(** [o.lower()]. *)
Definition call_lower (o : pyobj) : prog string :=
  match o with
  | PyStr s => Ret (lower s)
  | PyObj _ => Raise (AttributeError "lower")
  end.

(** [(lik_name,) + lik[1:]]: a tuple cannot be concatenated with a list. *)
Definition retuple (lik_name : string) (lik : seq_kind * list pyobj)
    : prog lik_tuple :=
  match fst lik with
  | KTuple => Ret (lik_name, tl (snd lik))
  | KList => Raise TypeError
  end.

(** Lines 165 to 170. *)
Definition resolve_likelihood (lik : lik_arg) : prog lik_tuple :=
  load_global "isinstance" ;;
  load_global "tuple" ;;
  load_global "list" ;;
  let lik := as_sequence lik in
  o <- getitem0 (snd lik) ;;
  lik_name <- call_lower o ;;
  lik <- retuple lik_name lik ;;
  load_global "assert_likelihood" ;;
  assert_likelihood lik_name ;;
  Ret lik.

(** Lines 182 to 190: [if not is_all_finite(a): raise ValueError(msg)]. *)
Definition require_finite (a : ref) (msg : string) : prog unit :=
  fin <- invoke (is_all_finite a) ;;
  if negb fin then load_global "ValueError" ;; Raise (ValueError msg)
  else Ret tt.

(** Lines 188 to 193. *)
Definition factorize (K : option ref) : prog (option ref) :=
  match K with
  | Some k =>
      require_finite k "Covariate matrix must have finite values only." ;;
      QS <- invoke (economic_qs k) ;;
      Ret (Some QS)
  | None => Ret None
  end.

(** Lines 199 to 202. *)
Definition dispatch (r : ScanReport) (y : ref) (lik : lik_tuple) (M : ref)
    (K QS : option ref) (G : ref) (verbose : bool) : prog ScanReport :=
  if String.eqb (fst lik) "normal" then
    load_global "_perform_lmm" ;;
    yv <- invoke (get_values y) ;;
    _perform_lmm r yv M QS G verbose
  else
    load_global "_perform_glmm" ;;
    yv <- invoke (get_values y) ;;
    _perform_glmm r yv lik M K QS G verbose.

(** Lines 174 to 207, the body of the [session_block]. *)
Definition scan_body (G y : ref) (lik : lik_tuple) (K M : option ref)
    (verbose : bool) : prog ScanReport :=
  load_global "session_line" ;;
  data <- session_line "Normalising input... " (negb verbose)
            (load_global "conform_dataset" ;;
             invoke (conform_dataset y M G K)) ;;
  let y := data_y data in
  let M := data_M data in
  let G := data_G data in
  let K := data_K data in
  require_finite y "Outcome must have finite values only." ;;
  require_finite M "Covariates must have finite values only." ;;
  QS <- factorize K ;;
  load_global "normalise_extreme_values" ;;
  y <- invoke (normalise_extreme_values (data_y data) lik) ;;
  load_global "ST_ScanResultFactory" ;;
  cov <- invoke (get_covariate M) ;;
  cand <- invoke (get_candidate G) ;;
  let r := ScanResultFactory lik cov cand in
  r <- dispatch r y lik M K QS G verbose ;;
  (if verbose then load_global "print" ;; show Print else Ret tt) ;;
  Ret r.

Definition st_scan (G y : ref) (lik : lik_arg) (K M : option ref)
    (verbose : bool) : prog ScanReport :=
  lik <- resolve_likelihood lik ;;
  load_global "session_block" ;;
  session_block "qtl analysis" (negb verbose)
    (scan_body G y lik K M verbose).

(** ** Running a program against collaborators *)

Inductive event :=
| Called (c : call)
| Shown (d : display).

Section Run.

(** The collaborators: their heap and what each call does to it. *)
Variable heap : Type.
Variable perform : forall c : call, heap -> (foreign + ret_type c) * heap.

Record result (A : Type) := {
  outcome : exn + A;
  final : heap;
  trace : list event
}.

Arguments outcome {A} r.
Arguments final {A} r.
Arguments trace {A} r.

Definition after {A : Type} (ev : event) (r : result A) : result A :=
  {| outcome := outcome r; final := final r; trace := ev :: trace r |}.

Fixpoint run {A : Type} (p : prog A) (h : heap) : result A :=
  match p with
  | Ret a => {| outcome := inr a; final := h; trace := [] |}
  | Raise e => {| outcome := inl e; final := h; trace := [] |}
  | Call c k =>
      let (r, h') := perform c h in after (Called c) (run (k r) h')
  | Display d k => after (Shown d) (run k h)
  end.

End Run.

Arguments outcome {heap A} r.
Arguments final {heap A} r.
Arguments trace {heap A} r.
Arguments run {heap} perform {A} p h.

(** ** Properties read off the program tree *)

(** Every way the program can end satisfies [P]. *)
Fixpoint leaves {A : Type} (P : exn + A -> Prop) (p : prog A) : Prop :=
  match p with
  | Ret a => P (inr a)
  | Raise e => P (inl e)
  | Call _ k => forall r, leaves P (k r)
  | Display _ k => leaves P k
  end.

(** Every call the program can make satisfies [P]. *)
Fixpoint nodes {A : Type} (P : call -> Prop) (p : prog A) : Prop :=
  match p with
  | Ret _ | Raise _ => True
  | Call c k => P c /\ forall r, nodes P (k r)
  | Display _ k => nodes P k
  end.

(** The calls of a trace, displays dropped. *)
Fixpoint calls_of (tr : list event) : list call :=
  match tr with
  | [] => []
  | Called c :: tr' => c :: calls_of tr'
  | Shown _ :: tr' => calls_of tr'
  end.

(** Calls into glimix_core: model construction, fitting, scanning. *)
Definition is_glimix (c : call) : bool :=
  match c with
  | conform_dataset _ _ _ _ | is_all_finite _ | economic_qs _
  | normalise_extreme_values _ _ | get_covariate _ | get_candidate _
  | get_values _ | get_data _ | ravel _ => false
  | _ => true
  end.

(** The fitting routines proper. *)
Definition is_fit (c : call) : bool :=
  match c with
  | LMM_fit _ _ | GLMMExpFam_fit _ _ | GLMMNormal_fit _ _ => true
  | _ => false
  end.

(** Derivation of the site parameters. *)
Definition is_site (c : call) : bool :=
  match c with
  | site_eta _ | site_tau _ => true
  | _ => false
  end.

Definition is_economic_qs (c : call) : bool :=
  match c with
  | economic_qs _ => true
  | _ => false
  end.

(** Number of spectral factorizations in a trace. *)
Definition factorizations (tr : list event) : nat :=
  List.length (filter is_economic_qs (calls_of tr)).

(** Calls that belong to input validation. *)
Definition is_validation (c : call) : bool :=
  match c with
  | conform_dataset _ _ _ _ | is_all_finite _ => true
  | _ => false
  end.

(** The exceptions that can leave the body of the [session_block]: the
    three [ValueError]s, whatever a collaborator raises, and a failed name
    lookup. *)
Definition raised_in_body (o : exn + ScanReport) : Prop :=
  match o with
  | inl (ValueError _) | inl (Propagated _) | inl (NameError _) => True
  | _ => False
  end.

(** The two documented forms of [lik]: a bare name, or a tuple that starts
    with the name. *)
Definition lik_forms (s : string) (aux : list pyobj) : list lik_arg :=
  [LikObj (PyStr s); LikTuple (PyStr s :: aux)].

(** The finiteness checks of lines 182 to 190, in source order, each with
    the message of its [ValueError]. *)
Definition finite_checks (d : dataset) : list (ref * string) :=
  (data_y d, "Outcome must have finite values only.")
  :: (data_M d, "Covariates must have finite values only.")
  :: match data_K d with
     | Some k => [(k, "Covariate matrix must have finite values only.")]
     | None => []
     end.

(** On every path through the program at most [n] calls satisfy [P]. *)
Fixpoint at_most {A : Type} (P : call -> bool) (n : nat) (p : prog A)
    : Prop :=
  match p with
  | Ret _ | Raise _ => True
  | Call c k =>
      if P c then
        match n with
        | O => False
        | S m => forall r, at_most P m (k r)
        end
      else forall r, at_most P n (k r)
  | Display _ k => at_most P n k
  end.

(** A call together with the answer it got. *)
Record exchange := Answer {
  asked : call;
  answered : ret_type asked
}.

(** The checks answer True. *)
Definition passes (checks : list (ref * string)) : list exchange :=
  map (fun chk => Answer (is_all_finite (fst chk)) true) checks.

(** What the collaborators answer along a run of [_perform_glmm] in which
    none of them raises, named after the variables of lines 236 to 255. *)
Record glmm_answers := {
  a_ravel : ref;
  a_M_values : ref;
  a_glmm : ref;
  a_eta : ref;
  a_tau : ref;
  a_M_values' : ref;
  a_gnormal : ref;
  a_beta : ref;
  a_flmm : ref;
  a_null_lml : float64;
  a_v1 : float64;
  a_v0 : float64;
  a_G_values : ref;
  a_alt_lmls : list float64;
  a_effsizes : list float64
}.

(** The two-stage path in words: an exact generalized model is built on
    [y], [lik], [M] and [QS] and fitted; its site parameters eta and tau are
    read; a Normal pseudo-model is built on eta and tau (with the same [M]
    and [QS]) and fitted; its scanner is set to scale 1.0 and asked for the
    null log marginal likelihood; the variance components are read from the
    pseudo-model; the scanner scans the values of [G]. *)
Definition glmm_script (y : ref) (lik : lik_tuple) (M : ref)
    (QS : option ref) (G : ref) (verbose : bool) (a : glmm_answers)
    : list exchange :=
  [ Answer (ravel y) (a_ravel a);
    Answer (get_values M) (a_M_values a);
    Answer (GLMMExpFam (a_ravel a) lik (a_M_values a) QS) (a_glmm a);
    Answer (GLMMExpFam_fit (a_glmm a) verbose) tt;
    Answer (site_eta (a_glmm a)) (a_eta a);
    Answer (site_tau (a_glmm a)) (a_tau a);
    Answer (get_values M) (a_M_values' a);
    Answer (GLMMNormal (a_eta a) (a_tau a) (a_M_values' a) QS) (a_gnormal a);
    Answer (GLMMNormal_fit (a_gnormal a) verbose) tt;
    Answer (GLMMNormal_beta (a_gnormal a)) (a_beta a);
    Answer (GLMMNormal_get_fast_scanner (a_gnormal a)) (a_flmm a);
    Answer (set_scale (a_flmm a) float_1_0) tt;
    Answer (null_lml (a_flmm a)) (a_null_lml a);
    Answer (GLMMNormal_v1 (a_gnormal a)) (a_v1 a);
    Answer (GLMMNormal_v0 (a_gnormal a)) (a_v0 a);
    Answer (get_values G) (a_G_values a);
    Answer (fast_scan (a_flmm a) (a_G_values a) verbose)
           (a_alt_lmls a, a_effsizes a) ].

(** The null state made of the pseudo-model's quantities. *)
Definition pseudo_null (a : glmm_answers) : NullModelState :=
  {| log_marginal_likelihood := a_null_lml a; beta := a_beta a;
     v1 := a_v1 a; v0 := a_v0 a |}.

(** One candidate result per pair of statistics, numbered from 0. *)
Definition tests_of (alt_lmls effsizes : list float64)
    : list CandidateResult :=
  map (fun row => {| index := fst row; effect_size := snd (snd row);
                     alt_log_marginal_likelihood := fst (snd row) |})
      (enumerate (zip alt_lmls effsizes)).

(** The report of the two-stage path: the factory's labels, the null state
    of the pseudo-model and one more candidate result per scanned pair. *)
Definition glmm_report (r : ScanReport) (a : glmm_answers) : ScanReport :=
  {| likelihood := likelihood r; covariate_labels := covariate_labels r;
     candidate_labels := candidate_labels r; null := Some (pseudo_null a);
     candidates := candidates r ++ tests_of (a_alt_lmls a) (a_effsizes a) |}.

Section Contracts.

Variable heap : Type.
Variable perform : forall c : call, heap -> (foreign + ret_type c) * heap.

(** The collaborators answer the calls of [s] one after the other,
    without raising, taking the heap from [h] to [h']. *)
Fixpoint follows (h : heap) (s : list exchange) (h' : heap) : Prop :=
  match s with
  | [] => h' = h
  | x :: s' =>
      exists h1, perform (asked x) h = (inr (answered x), h1)
                 /\ follows h1 s' h'
  end.

(** One of the conformed arrays holds a non-finite value: its check
    answers False, after the checks before it have answered True; [msg]
    is the message of that check. *)
Definition finds_nonfinite (d : dataset) (h : heap) (msg : string) : Prop :=
  exists before a rest h',
    finite_checks d = before ++ (a, msg) :: rest
    /\ follows h (passes before) h'
    /\ fst (perform (is_all_finite a) h') = inr false.

(** Modelled from the spec: the routines of glimix_core are not under
    src/.  Section 5: "Progress reporting (a verbosity toggle) is
    advisory and must not affect numerical results"; for a collaborator
    that takes the toggle this says that its answer and its effect on the
    heap are the same either way. *)
Definition verbosity_advisory : Prop :=
  (forall o h, perform (LMM_fit o true) h = perform (LMM_fit o false) h)
  /\ (forall o h,
        perform (GLMMExpFam_fit o true) h = perform (GLMMExpFam_fit o false) h)
  /\ (forall o h,
        perform (GLMMNormal_fit o true) h = perform (GLMMNormal_fit o false) h)
  /\ (forall o G h,
        perform (fast_scan o G true) h = perform (fast_scan o G false) h).

End Contracts.

Arguments follows {heap} perform h s h'.
Arguments finds_nonfinite {heap} perform d h msg.
Arguments verbosity_advisory {heap} perform.

(** The site parameters have been derived before the covariance is
    factorized: every factorization in the trace comes after a read of
    [glmm.site.tau], the last step of the derivation (line 242). *)
Definition factorization_deferred (tr : list event) : Prop :=
  forall pre k post,
    tr = pre ++ Called (economic_qs k) :: post ->
    exists glmm, In (Called (site_tau glmm)) pre.

(** ** Stand-in collaborators

    A small world to run the programs in: arrays are lists of floats kept
    in an association list, objects of glimix_core are fresh references,
    the fits succeed and the scanner answers one statistic per entry of the
    matrix it is given. *)
Module Stub.

Definition heap := list (ref * list float64).

Fixpoint peek (h : heap) (a : ref) : option (list float64) :=
  match h with
  | [] => None
  | (b, v) :: h' => if Pos.eqb a b then Some v else peek h' a
  end.

(** A reference above every reference in use. *)
Definition unused (h : heap) : ref :=
  Pos.succ (fold_right Pos.max 1%positive (map fst h)).

Definition fresh {E : Type} (v : list float64) (h : heap)
    : (E + ref) * heap :=
  (inr (unused h), (unused h, v) :: h).

Definition copy (a : ref) (h : heap) : (foreign + ref) * heap :=
  match peek h a with
  | Some v => fresh v h
  | None => (inl "TypeError: not an array", h)
  end.

Definition nan : float64 := 0x7FF8000000000000%Z.
Definition two : float64 := 0x4000000000000000%Z.
Definition lml_value : float64 := 0xC0485E47AE147AE1%Z.
Definition pseudo_lml_value : float64 := 0xC0485E353F7CED91%Z.
Definition v1_value : float64 := 0x3FE947AE147AE148%Z.
Definition v0_value : float64 := 0x3FC3333333333333%Z.

Definition perform (c : call) (h : heap) : (foreign + ret_type c) * heap :=
  match c return (foreign + ret_type c) * heap with
  | conform_dataset y M G K =>
      match peek h y, peek h G with
      | Some vy, Some _ =>
          match M with
          | Some m =>
              (inr {| data_y := y; data_M := m; data_G := G; data_K := K |}, h)
          | None =>
              (inr {| data_y := y; data_M := unused h; data_G := G;
                      data_K := K |},
               (unused h, map (fun _ => float_1_0) vy) :: h)
          end
      | _, _ => (inl "TypeError: not an array", h)
      end
  | is_all_finite a =>
      match peek h a with
      | Some v => (inr (forallb isfinite v), h)
      | None => (inl "TypeError: not an array", h)
      end
  | economic_qs K => copy K h
  | normalise_extreme_values y _ => copy y h
  | get_covariate a | get_candidate a | get_values a | get_data a
  | ravel a => (inr a, h)
  | LMM _ _ _ | GLMMExpFam _ _ _ _ | GLMMNormal _ _ _ _
  | LMM_get_fast_scanner _ | GLMMNormal_get_fast_scanner _ => fresh [] h
  | LMM_beta _ | GLMMNormal_beta _ => fresh [v1_value] h
  | site_eta _ => fresh [two; two] h
  | site_tau _ => fresh [float_1_0; float_1_0] h
  | LMM_fit _ _ | GLMMExpFam_fit _ _ | GLMMNormal_fit _ _
  | set_scale _ _ => (inr tt, h)
  | LMM_lml _ => (inr lml_value, h)
  | null_lml _ => (inr pseudo_lml_value, h)
  | LMM_v1 _ | GLMMNormal_v1 _ => (inr v1_value, h)
  | LMM_v0 _ | GLMMNormal_v0 _ => (inr v0_value, h)
  | fast_scan _ G _ =>
      match peek h G with
      | Some v => (inr (map (fun _ => lml_value) v, v), h)
      | None => (inl "TypeError: not an array", h)
      end
  end.

(** Two samples, three candidates; [y] is 1, [G] is 2, [K] is 3,
    [M] is 4. *)
Definition h0 : heap :=
  [(1%positive, [float_1_0; two]);
   (2%positive, [two; float_1_0; two]);
   (3%positive, [float_1_0; two; two; float_1_0]);
   (4%positive, [float_1_0; float_1_0])].

(** The same with a NaN in [y]. *)
Definition h_nan : heap :=
  [(1%positive, [float_1_0; nan]);
   (2%positive, [two; float_1_0; two]);
   (3%positive, [float_1_0; two; two; float_1_0]);
   (4%positive, [float_1_0; float_1_0])].

End Stub.



(** ** More of [_st_scan.py]: what a run shows and how the paths end *)

(** The exceptions [st_scan] can end with: those of lines 168 and 169 on a
    malformed [lik], the rejection of a name outside the allowed set, the
    three [ValueError]s of lines 183, 186 and 190, the failed lookup of
    line 197, and whatever a collaborator raises. *)
Definition st_scan_exception (e : exn) : Prop :=
  match e with
  | IndexError | TypeError | Propagated _ => True
  | AttributeError attr => attr = "lower"
  | InvalidLikelihoodError name => mem name CONF_likelihoods = false
  | ValueError msg =>
      In msg ["Outcome must have finite values only.";
              "Covariates must have finite values only.";
              "Covariate matrix must have finite values only."]
  | NameError name => name = "ST_ScanResultFactory"
  end.

(** The calls of a scan whose input passes validation, up to line 195:
    conformance, the finiteness checks, the factorization when [K] is
    there, the normalisation of [y]. *)
Definition validation_script (y : ref) (M : option ref) (G : ref)
    (K : option ref) (l : lik_tuple) (d : dataset) (qs ynorm : ref)
    : list exchange :=
  Answer (conform_dataset y M G K) d
  :: passes (finite_checks d)
  ++ match data_K d with
     | Some k => [Answer (economic_qs k) qs]
     | None => []
     end
  ++ [Answer (normalise_extreme_values (data_y d) l) ynorm].

(** What the collaborators answer along a run of [_perform_lmm] in which
    none of them raises, named after the variables of lines 213 to 225. *)
Record lmm_answers := {
  l_M_values : ref;
  l_lmm : ref;
  l_null_lml : float64;
  l_beta : ref;
  l_v1 : float64;
  l_v0 : float64;
  l_flmm : ref;
  l_G_data : ref;
  l_alt_lmls : list float64;
  l_effsizes : list float64
}.

Definition lmm_script (y M : ref) (QS : option ref) (G : ref)
    (verbose : bool) (a : lmm_answers) : list exchange :=
  [ Answer (get_values M) (l_M_values a);
    Answer (LMM y (l_M_values a) QS) (l_lmm a);
    Answer (LMM_fit (l_lmm a) verbose) tt;
    Answer (LMM_lml (l_lmm a)) (l_null_lml a);
    Answer (LMM_beta (l_lmm a)) (l_beta a);
    Answer (LMM_v1 (l_lmm a)) (l_v1 a);
    Answer (LMM_v0 (l_lmm a)) (l_v0 a);
    Answer (LMM_get_fast_scanner (l_lmm a)) (l_flmm a);
    Answer (get_data G) (l_G_data a);
    Answer (fast_scan (l_flmm a) (l_G_data a) verbose)
           (l_alt_lmls a, l_effsizes a) ].

Definition lmm_report (r : ScanReport) (a : lmm_answers) : ScanReport :=
  {| likelihood := likelihood r; covariate_labels := covariate_labels r;
     candidate_labels := candidate_labels r;
     null := Some {| log_marginal_likelihood := l_null_lml a;
                     beta := l_beta a; v1 := l_v1 a; v0 := l_v0 a |};
     candidates := candidates r ++ tests_of (l_alt_lmls a) (l_effsizes a) |}.

Definition is_lmm_fit (c : call) : bool :=
  match c with LMM_fit _ _ => true | _ => false end.

Definition is_exact_fit (c : call) : bool :=
  match c with GLMMExpFam_fit _ _ => true | _ => false end.

Definition is_pseudo_fit (c : call) : bool :=
  match c with GLMMNormal_fit _ _ => true | _ => false end.

(** ** [limix/_data/_conf.py], the other tables *)

(** A dict display: of two entries with the same key the later one
    stands. *)
Definition dict (V : Type) := list (string * V).

Fixpoint dict_get {V : Type} (d : dict V) (k : string) : option V :=
  match d with
  | [] => None
  | (k', v) :: d' =>
      match dict_get d' k with
      | Some w => Some w
      | None => if String.eqb k k' then Some v else None
      end
  end.

(** [set([...])]: the distinct elements. *)
Definition pyset (l : list string) : list string := nodup string_dec l.

Definition CONF_targets : list string :=
  pyset ["trait"; "covariate"; "covariance"; "genotype"; "covariate";
         "inter0"; "inter1"].

Definition CONF_filetypes : list string := pyset ["csv"; "bed"].

Definition CONF_dim_axis : dict nat :=
  [("sample", 0); ("trait", 1); ("candidate", 1); ("covariate", 1);
   ("sample_0", 0); ("sample_1", 1)].

Definition CONF_dim_names : list string :=
  pyset ["sample"; "candidate"; "covariate"; "trait"].

Definition CONF_data_synonym : dict string :=
  [("y", "trait"); ("trait", "y"); ("G", "genotype"); ("genotype", "G");
   ("M", "covariate"); ("covariate", "M"); ("K", "covariance");
   ("covariance", "K")].

Definition CONF_data_dims : dict (list string) :=
  [("trait", ["sample"; "trait"]);
   ("genotype", ["sample"; "candidate"]);
   ("covariate", ["sample"; "covariate"]);
   ("covariance", ["sample_0"; "sample_1"]);
   ("inter0", ["sample"; "inter"]);
   ("inter1", ["sample"; "inter"])].

Definition CONF_varname_to_target : dict string :=
  [("y", "trait"); ("M", "covariate"); ("G", "genotype");
   ("K", "covariance")].

Definition CONF_target_to_varname : dict string :=
  [("trait", "y"); ("covariate", "M"); ("genotype", "G");
   ("covariance", "K")].

(** ** [limix/qtl/__init__.py] *)

(** The [from .module import name] statements, in order. *)
Definition qtl_imports : list (string * string) :=
  [("qtl", "qtl_test_lm"); ("qtl", "qtl_test_lmm");
   ("qtl", "qtl_test_lmm_kronecker");
   ("qtl", "qtl_test_interaction_lmm_kronecker"); ("lmm", "LMM")].

(** [__all__]. *)
Definition qtl_all : list string :=
  ["qtl_test_lm"; "qtl_test_lmm"; "qtl_test_lmm_kronecker";
   "qtl_test_interaction_lmm_kronecker"; "LMM"].

(** ** [setup.py] *)

(** The part of the interpreter's state that [setup_package] touches: the
    working directory, [sys.path], [sys.argv], and the directories that
    exist. *)
Record process := {
  cwd : string;
  sys_path : list string;
  sys_argv : list string;
  dirs : list string
}.

Inductive os_exn :=
| ArgvIndexError
| PathIndexError
| FileNotFoundError (path : string)
| Raised (e : foreign).

(** The keyword arguments that [setup] is called with at line 78. *)
Record metadata := {
  md_name : string;
  md_version : string;
  md_maintainer : string;
  md_maintainer_email : string;
  md_author : string;
  md_author_email : string;
  md_license : string;
  md_description : string;
  md_long_description : string;
  md_url : string;
  md_packages : list string;
  md_zip_safe : bool;
  md_install_requires : list string;
  md_setup_requires : list string;
  md_tests_require : list string;
  md_extras_require : dict (list string);
  md_include_package_data : bool;
  md_classifiers : list string;
  md_entry_points : dict (list string)
}.

(** [{'pytest', 'test', 'ptr'}.intersection(sys.argv)]. *)
Definition needs_pytest (argv : list string) : list string :=
  filter (fun a => mem a argv) (pyset ["pytest"; "test"; "ptr"]).

(** [['pytest-runner>=2.9'] if needs_pytest else []]. *)
Definition pytest_runner (argv : list string) : list string :=
  match needs_pytest argv with
  | [] => []
  | _ :: _ => ["pytest-runner>=2.9"]
  end.

Definition setup_requires (argv : list string) : list string :=
  ["cython"; "numpy"] ++ pytest_runner argv.

Definition install_requires : list string :=
  ["scikit-learn>=0.19.0"; "limix-core>=1.0.1"; "tabulate>=0.7.7";
   "dask[array,bag,dataframe,delayed]>=0.14"; "h5py";
   "pandas-plink>=1.1.7"; "limix-legacy"; "glimix-core>=1.2.20";
   "joblib>=0.11"; "tqdm>=4.10"; "scipy>=0.18"; "distributed";
   "numpy-sugar>=1.0.47"; "ncephes>=1.0.38"; "asciitree>=0.3.3";
   "humanfriendly>=3.6.1"; "statsmodels>=0.8"; "brent-search>=1.0.18";
   "pandas>=0.20"; "feather-format>=0.4"].

Definition tests_require : list string :=
  ["pytest"; "pytest-console-scripts"; "pytest-pep8"].

Definition recommended : dict (list string) :=
  [("numba", ["numba>=0.32"])].

Definition console_scripts : list string :=
  ["limix_runner=limix.scripts.limix_runner:entry_point";
   "mtset_postprocess=limix.scripts.mtset_postprocess:entry_point";
   "mtset_preprocess=limix.scripts.mtset_preprocess:entry_point";
   "mtset_definesets=limix.scripts.mtset_definesets:entry_point";
   "mtset_simpheno=limix.scripts.mtset_simpheno:entry_point";
   "mtset_analyze=limix.scripts.mtset_analyze:entry_point";
   "limix_converter=limix.scripts.limix_converter:entry_point";
   "iset_analyze=limix.scripts.iset_analyze:entry_point";
   "iset_postprocess=limix.scripts.iset_postprocess:entry_point";
   "limix=limix.scripts._limix:entry_point";
   "ilimix=limix.scripts.ilimix:entry_point"].

Definition make_metadata (long_description : string) (packages : list string)
    (argv : list string) : metadata :=
  {| md_name := "limix";
     md_version := "1.0.9";
     md_maintainer := "Limix Developers";
     md_maintainer_email := "horta@ebi.ac.uk";
     md_author := "Christoph Lippert, Danilo Horta, "
                  ++ "Francesco Paolo Casale, Oliver Stegle";
     md_author_email := "stegle@ebi.ac.uk";
     md_license := "Apache License 2.0'";
     md_description := "A flexible and fast mixed model toolbox.";
     md_long_description := long_description;
     md_url := "https://github.com/limix/limix";
     md_packages := packages;
     md_zip_safe := false;
     md_install_requires := install_requires;
     md_setup_requires := setup_requires argv;
     md_tests_require := tests_require;
     md_extras_require := recommended;
     md_include_package_data := true;
     md_classifiers :=
       ["Development Status :: 5 - Production/Stable";
        "License :: OSI Approved :: MIT License";
        "Operating System :: OS Independent"];
     md_entry_points := [("console_scripts", console_scripts)] |}.

(** [os.chdir(path)]. *)
Definition chdir (path : string) (st : process) : (os_exn + unit) * process :=
  if mem path (dirs st)
  then (inr tt, {| cwd := path; sys_path := sys_path st;
                   sys_argv := sys_argv st; dirs := dirs st |})
  else (inl (FileNotFoundError path), st).

(** [sys.path.insert(0, path)]. *)
Definition sys_path_insert_0 (path : string) (st : process) : process :=
  {| cwd := cwd st; sys_path := path :: sys_path st;
     sys_argv := sys_argv st; dirs := dirs st |}.

(** [del sys.path[0]]. *)
Definition del_sys_path_0 (st : process) : (os_exn + unit) * process :=
  match sys_path st with
  | [] => (inl PathIndexError, st)
  | _ :: rest => (inr tt, {| cwd := cwd st; sys_path := rest;
                             sys_argv := sys_argv st; dirs := dirs st |})
  end.

Section SetupPackage.

(** [os.path.dirname(os.path.abspath(p))], given the working directory. *)
Variable script_dir : string -> string -> string.

(** [setuptools.find_packages] and [setuptools.setup]; both may raise and
    may leave the process in another state. *)
Variable find_packages : process -> (foreign + list string) * process.
Variable setup : metadata -> process -> (foreign + unit) * process.

(** The module-level [long_description], set at lines 8 to 12. *)
Variable long_description : string.

(** The [finally] clause of lines 79 to 81, after a [try] body that ended
    with [res]: an exception of the clause replaces [res]. *)
Definition finally_restore (old_path : string) (res : os_exn + unit)
    (st : process) : (os_exn + unit) * process :=
  match del_sys_path_0 st with
  | (inl e, st') => (inl e, st')
  | (inr _, st') =>
      match chdir old_path st' with
      | (inl e, st'') => (inl e, st'')
      | (inr _, st'') => (res, st'')
      end
  end.

Definition setup_package (st : process) : (os_exn + unit) * process :=
  match sys_argv st with
  | [] => (inl ArgvIndexError, st)
  | argv0 :: _ =>
      let src_path := script_dir (cwd st) argv0 in
      let old_path := cwd st in
      match chdir src_path st with
      | (inl e, st) => (inl e, st)
      | (inr _, st) =>
          let st := sys_path_insert_0 src_path st in
          let argv := sys_argv st in
          match find_packages st with
          | (inl e, st) => (inl (Raised e), st)
          | (inr packages, st) =>
              let md := make_metadata long_description packages argv in
              match setup md st with
              | (inl e, st) => finally_restore old_path (inl (Raised e)) st
              | (inr _, st) => finally_restore old_path (inr tt) st
              end
          end
      end
  end.

End SetupPackage.

(** The toggle a call carries, if it takes one. *)
Definition verbose_of (c : call) : option bool :=
  match c with
  | LMM_fit _ v | GLMMExpFam_fit _ v | GLMMNormal_fit _ v
  | fast_scan _ _ v => Some v
  | _ => None
  end.


(** The process once lines 18 and 19 have run. *)
Definition entered (st : process) (src_path : string) : process :=
  {| cwd := src_path; sys_path := src_path :: sys_path st;
     sys_argv := sys_argv st; dirs := dirs st |}.

(** The outcome of [setup] as [setup_package] passes it on. *)
Definition passed_on (res : foreign + unit) : os_exn + unit :=
  match res with
  | inl e => inl (Raised e)
  | inr u => inr u
  end.

(** Stand-ins for setuptools: the script lives in /src, one package is
    found, [setup] raises. *)
Module SetupStub.

Definition script_dir (_ _ : string) : string := "/src".

Definition find_packages (st : process)
    : (foreign + list string) * process :=
  (inr ["limix"], st).

Definition failing_find_packages (st : process)
    : (foreign + list string) * process :=
  (inl "OSError", st).

Definition setup (_ : metadata) (st : process)
    : (foreign + unit) * process :=
  (inl "DistutilsError", st).

Definition clearing_setup (_ : metadata) (st : process)
    : (foreign + unit) * process :=
  (inr tt, {| cwd := cwd st; sys_path := []; sys_argv := sys_argv st;
              dirs := dirs st |}).

Definition st0 : process :=
  {| cwd := "/home"; sys_path := ["/usr/lib/python"];
     sys_argv := ["setup.py"; "test"]; dirs := ["/home"; "/src"] |}.

End SetupStub.

(** The decomposition a model is constructed with. *)
Definition qs_of (c : call) : option (option ref) :=
  match c with
  | LMM _ _ QS | GLMMExpFam _ _ _ QS | GLMMNormal _ _ _ QS => Some QS
  | _ => None
  end.



(** * Theorems *)

Section Facts.

Variable heap : Type.
Variable perform : forall c : call, heap -> (foreign + ret_type c) * heap.

Lemma run_leaves {A : Type} (P : exn + A -> Prop) (p : prog A) :
  leaves P p -> forall h, P (outcome (run perform p h)).
Proof.
  induction p as [a | e | c k IH | d k IH]; simpl; intros Hp h; auto.
  destruct (perform c h) as [r h']. simpl. apply IH, Hp.
Qed.

Lemma run_nodes {A : Type} (P : call -> Prop) (p : prog A) :
  nodes P p -> forall h, Forall P (calls_of (trace (run perform p h))).
Proof.
  induction p as [a | e | c k IH | d k IH]; simpl; intros Hp h; auto.
  destruct Hp as [Hc Hk]. destruct (perform c h) as [r h']. simpl.
  constructor; auto.
Qed.

Lemma run_bind {A B : Type} (p : prog A) (f : A -> prog B) (h : heap) :
  run perform (bind p f) h =
  match outcome (run perform p h) with
  | inl e => {| outcome := inl e; final := final (run perform p h);
                trace := trace (run perform p h) |}
  | inr a =>
      let r := run perform (f a) (final (run perform p h)) in
      {| outcome := outcome r; final := final r;
         trace := trace (run perform p h) ++ trace r |}
  end.
Proof.
  revert h. induction p as [a | e | c k IH | d k IH]; simpl; intros h.
  - destruct (run perform (f a) h); reflexivity.
  - reflexivity.
  - destruct (perform c h) as [r h']. rewrite IH. unfold after. simpl.
    destruct (outcome (run perform (k r) h')); reflexivity.
  - rewrite IH. unfold after. simpl.
    destruct (outcome (run perform k h)); reflexivity.
Qed.

Lemma run_and_finally {A : Type} (p : prog A) (d : display) (h : heap) :
  run perform (and_finally p d) h =
  {| outcome := outcome (run perform p h);
     final := final (run perform p h);
     trace := trace (run perform p h) ++ [Shown d] |}.
Proof.
  revert h. induction p as [a | e | c k IH | d' k IH]; simpl; intros h;
    try reflexivity.
  - destruct (perform c h) as [r h']. rewrite IH. reflexivity.
  - rewrite IH. reflexivity.
Qed.

Lemma leaves_weaken {A : Type} (P Q : exn + A -> Prop) (p : prog A) :
  (forall o, P o -> Q o) -> leaves P p -> leaves Q p.
Proof.
  intros HPQ. induction p as [a | e | c k IH | d k IH]; simpl; auto.
Qed.

Lemma leaves_bind {A B : Type} (P : exn + B -> Prop) (p : prog A)
    (f : A -> prog B) :
  leaves (fun o => match o with
                   | inl e => P (inl e)
                   | inr a => leaves P (f a)
                   end) p ->
  leaves P (bind p f).
Proof.
  induction p as [a | e | c k IH | d k IH]; simpl; auto.
Qed.

Lemma leaves_and_finally {A : Type} (P : exn + A -> Prop) (p : prog A)
    (d : display) :
  leaves P p -> leaves P (and_finally p d).
Proof.
  induction p as [a | e | c k IH | d' k IH]; simpl; auto.
Qed.

Lemma nodes_bind {A B : Type} (P : call -> Prop) (p : prog A)
    (f : A -> prog B) :
  nodes P p -> (forall a, nodes P (f a)) -> nodes P (bind p f).
Proof.
  intros Hp Hf. induction p as [a | e | c k IH | d k IH]; simpl in *; auto.
  destruct Hp as [Hc Hk]. split; auto.
Qed.

Lemma nodes_and_finally {A : Type} (P : call -> Prop) (p : prog A)
    (d : display) :
  nodes P p -> nodes P (and_finally p d).
Proof.
  induction p as [a | e | c k IH | d' k IH]; simpl; auto.
  intros [Hc Hk]. split; auto.
Qed.

Lemma run_at_most {A : Type} (P : call -> bool) (p : prog A) :
  forall n h, at_most P n p ->
  List.length (filter P (calls_of (trace (run perform p h)))) <= n.
Proof.
  induction p as [a | e | c k IH | d k IH]; cbn; intros n h Hp;
    try lia; auto.
  destruct (perform c h) as [r h']. cbn.
  destruct (P c).
  - destruct n as [|m]; [contradiction|]. cbn.
    specialize (IH r m h' (Hp r)). lia.
  - apply IH, Hp.
Qed.

Lemma at_most_and_finally {A : Type} (P : call -> bool) (p : prog A) d :
  forall n, at_most P n p -> at_most P n (and_finally p d).
Proof.
  induction p as [a | e | c k IH | d' k IH]; cbn; intros n Hp; auto.
  destruct (P c); [destruct n; auto|]; auto.
Qed.

End Facts.

(** ** The result factory *)

Arguments add_tests : simpl never.

Lemma add_tests_eq r rows :
  add_tests r rows
  = {| likelihood := likelihood r; covariate_labels := covariate_labels r;
       candidate_labels := candidate_labels r; null := null r;
       candidates := candidates r ++
         map (fun row => {| index := fst row; effect_size := snd (snd row);
                            alt_log_marginal_likelihood := fst (snd row) |})
             rows |}.
Proof.
  unfold add_tests. revert r.
  induction rows as [|row rows IH]; intros r; cbn.
  - rewrite app_nil_r. now destruct r.
  - rewrite IH. cbn. now rewrite <- app_assoc.
Qed.

Lemma enumerate_from_indices {A : Type} (i : nat) (l : list A) :
  map fst (enumerate_from i l) = seq i (List.length l).
Proof.
  revert i. induction l as [|x l IH]; intros i; cbn; [reflexivity|].
  now rewrite IH.
Qed.

(** The candidate results are numbered 0, 1, ... in the order of the
    scanner's answer, as many as the shorter of its two arrays. *)
Lemma tests_of_indices alt_lmls effsizes :
  map index (tests_of alt_lmls effsizes)
  = seq 0 (Nat.min (List.length alt_lmls) (List.length effsizes)).
Proof.
  unfold tests_of, enumerate, zip. rewrite map_map. cbn.
  rewrite <- (map_map fst (fun i => i)), map_id, enumerate_from_indices.
  now rewrite length_combine.
Qed.

(** ** Walking the tree of [st_scan] *)

Arguments mem : simpl never.
Arguments load_global : simpl never.
Arguments assert_likelihood : simpl never.

(** Replace each lookup of a literal name by its result. *)
Ltac resolve_names :=
  repeat match goal with
         | |- context [load_global ?n] =>
             let v := eval vm_compute in (load_global n) in
             change (load_global n) with v
         end.

(** Descend through the program, one case per answer of a collaborator. *)
Ltac walk :=
  repeat (resolve_names; cbn;
    match goal with
    | |- _ /\ _ => split
    | |- forall _ : _ + _, _ => intros [?|?]
    | |- forall _, _ => intro
    | |- context [if negb ?b then _ else _] => destruct b
    | |- context [match data_K ?d with _ => _ end] => destruct (data_K d)
    | |- True => exact I
    end).

(** Line 197 refers to a name that lines 1 to 8 do not bind. *)
Lemma ST_ScanResultFactory_unbound :
  load_global "ST_ScanResultFactory"
  = Raise (NameError "ST_ScanResultFactory").
Proof. reflexivity. Qed.

Lemma resolve_likelihood_eq (lik : lik_arg) :
  resolve_likelihood lik =
  match as_sequence lik with
  | (_, []) => Raise IndexError
  | (_, PyObj _ :: _) => Raise (AttributeError "lower")
  | (KList, PyStr _ :: _) => Raise TypeError
  | (KTuple, PyStr s :: aux) =>
      if mem (lower s) CONF_likelihoods then Ret (lower s, aux)
      else Raise (InvalidLikelihoodError (lower s))
  end.
Proof.
  unfold resolve_likelihood.
  destruct (as_sequence lik) as [[|] [|[s|o] aux]]; resolve_names; cbn;
    try reflexivity.
  unfold assert_likelihood.
  destruct (mem (lower s) CONF_likelihoods); reflexivity.
Qed.

Lemma st_scan_eq G y lik K M verbose :
  st_scan G y lik K M verbose =
  (l <- resolve_likelihood lik ;;
   session_block "qtl analysis" (negb verbose) (scan_body G y l K M verbose)).
Proof. reflexivity. Qed.

Lemma scan_body_raises G y lik K M verbose :
  leaves raised_in_body (scan_body G y lik K M verbose).
Proof.
  unfold scan_body, session_line, factorize, require_finite.
  destruct verbose; walk; resolve_names; cbn; auto.
Qed.

Lemma scan_body_nodes G y lik K M verbose :
  nodes (fun c => is_glimix c = false) (scan_body G y lik K M verbose).
Proof.
  unfold scan_body, session_line, factorize, require_finite.
  destruct verbose; walk; resolve_names; cbn; auto.
Qed.

Lemma session_block_leaves {A : Type} (P : exn + A -> Prop) name disable
    (p : prog A) :
  leaves P p -> leaves P (session_block name disable p).
Proof.
  intros Hp. unfold session_block. destruct disable; cbn; auto.
  now apply leaves_and_finally.
Qed.

Lemma session_block_nodes {A : Type} (P : call -> Prop) name disable
    (p : prog A) :
  nodes P p -> nodes P (session_block name disable p).
Proof.
  intros Hp. unfold session_block. destruct disable; cbn; auto.
  now apply nodes_and_finally.
Qed.

Lemma st_scan_leaves G y lik K M verbose :
  leaves (fun o => exists e, o = inl e) (st_scan G y lik K M verbose).
Proof.
  rewrite st_scan_eq, resolve_likelihood_eq.
  destruct (as_sequence lik) as [[|] [|[s|o] aux]]; cbn; eauto.
  destruct (mem (lower s) CONF_likelihoods); cbn; eauto.
  apply session_block_leaves.
  apply leaves_weaken with (P := raised_in_body).
  - intros [[]|r]; cbn; intros H; try contradiction; eauto.
  - apply scan_body_raises.
Qed.

Lemma st_scan_nodes G y lik K M verbose :
  nodes (fun c => is_glimix c = false) (st_scan G y lik K M verbose).
Proof.
  rewrite st_scan_eq, resolve_likelihood_eq.
  destruct (as_sequence lik) as [[|] [|[s|o] aux]]; cbn; auto.
  destruct (mem (lower s) CONF_likelihoods); cbn; auto.
  apply session_block_nodes, scan_body_nodes.
Qed.

Lemma scan_body_factorizes_once G y lik K M verbose :
  at_most is_economic_qs 1 (scan_body G y lik K M verbose).
Proof.
  unfold scan_body, session_line, factorize, require_finite.
  destruct verbose; walk; resolve_names; cbn; auto.
Qed.

Lemma st_scan_factorizes_once G y lik K M verbose :
  at_most is_economic_qs 1 (st_scan G y lik K M verbose).
Proof.
  rewrite st_scan_eq, resolve_likelihood_eq.
  destruct (as_sequence lik) as [[|] [|[s|o] aux]]; cbn; auto.
  destruct (mem (lower s) CONF_likelihoods); cbn; auto.
  unfold session_block. destruct verbose; cbn.
  - apply at_most_and_finally, scan_body_factorizes_once.
  - apply scan_body_factorizes_once.
Qed.

(** ** The two paths of lines 199 to 202, taken on their own *)

Lemma dispatch_normal r y aux M K QS G verbose :
  dispatch r y ("normal", aux) M K QS G verbose
  = (yv <- invoke (get_values y) ;; _perform_lmm r yv M QS G verbose).
Proof. reflexivity. Qed.

Lemma dispatch_other r y name aux M K QS G verbose :
  String.eqb name "normal" = false ->
  dispatch r y (name, aux) M K QS G verbose
  = (yv <- invoke (get_values y) ;;
     _perform_glmm r yv (name, aux) M K QS G verbose).
Proof. intros H. unfold dispatch. cbn. now rewrite H. Qed.

(** The linear-mixed-model path never reads site parameters. *)
Lemma _perform_lmm_no_site r y M QS G verbose :
  nodes (fun c => is_site c = false) (_perform_lmm r y M QS G verbose).
Proof. unfold _perform_lmm. walk; resolve_names; cbn; auto. Qed.

(** Neither path factorizes: both use the [QS] they are handed. *)
Lemma dispatch_never_factorizes r y lik M K QS G verbose :
  at_most is_economic_qs 0 (dispatch r y lik M K QS G verbose).
Proof.
  unfold dispatch, _perform_lmm, _perform_glmm.
  destruct (fst lik =? "normal")%string; walk; resolve_names; cbn; auto.
Qed.

Section Claims.

Variable heap : Type.
Variable perform : forall c : call, heap -> (foreign + ret_type c) * heap.

(** Use what is known of a collaborator's answer. *)
Ltac answer H :=
  match type of H with
  | perform ?c ?h = _ => rewrite H; cbn
  | fst (perform ?c ?h) = _ =>
      let r := fresh "r" in
      let hz := fresh "h" in
      destruct (perform c h) as [r hz]; cbn in H; subst r; cbn
  end.

Lemma run_session_block {A : Type} name disable (p : prog A) h :
  outcome (run perform (session_block name disable p) h)
  = outcome (run perform p h)
  /\ final (run perform (session_block name disable p) h)
     = final (run perform p h)
  /\ calls_of (trace (run perform (session_block name disable p) h))
     = calls_of (trace (run perform p h)).
Proof.
  unfold session_block. destruct disable; cbn; auto.
  rewrite run_and_finally. cbn. repeat split.
  induction (trace (run perform p h)) as [|[c|d] tr IH]; cbn; congruence.
Qed.

(** C2.  When a finiteness check of lines 182 to 190 answers False on the
    conformed [y], [M] or [K], [st_scan] raises the [ValueError] of that
    check, and the only calls it has made are [conform_dataset] and
    [is_all_finite]: no factorization, no model, no fit. *)
Theorem st_scan_nonfinite_raises_before_fit
    G y lik K M verbose h l d h1 msg :
  resolve_likelihood lik = Ret l ->
  perform (conform_dataset y M G K) h = (inr d, h1) ->
  finds_nonfinite perform d h1 msg ->
  let r := run perform (st_scan G y lik K M verbose) h in
  outcome r = inl (ValueError msg)
  /\ forallb is_validation (calls_of (trace r)) = true.
Proof.
  intros Hres Hconf (before & a & rest & h' & Heq & Hfol & Hfalse).
  cbv zeta. rewrite st_scan_eq, Hres. cbn.
  destruct (run_session_block "qtl analysis" (negb verbose)
              (scan_body G y l K M verbose) h) as (Ho & _ & Hc).
  rewrite Ho, Hc. clear Ho Hc.
  unfold scan_body, session_line, factorize, require_finite,
    finite_checks in *.
  resolve_names.
  destruct before as [|b1 [|b2 [|b3 before]]]; cbn in Heq, Hfol.
  - injection Heq as Ha Hm _. subst a msg h'.
    destruct verbose; cbn; answer Hconf; answer Hfalse; auto.
  - injection Heq as Hb Ha Hm _. subst b1 a msg.
    destruct Hfol as (h2 & Hy & ->). cbn in Hy.
    destruct verbose; cbn; answer Hconf; answer Hy; answer Hfalse; auto.
  - destruct (data_K d) as [k|] eqn:EK; [|discriminate Heq].
    injection Heq as Hb1 Hb2 Ha Hm _. subst b1 b2 a msg.
    destruct Hfol as (h2 & Hy & h3 & HM & ->). cbn in Hy, HM.
    destruct verbose; cbn; answer Hconf; answer Hy; answer HM;
      rewrite EK; cbn; answer Hfalse; auto.
  - destruct (data_K d); destruct before; discriminate Heq.
Qed.

(** What [st_scan] does with a tuple that starts with the name [s]. *)
Lemma st_scan_on_name G y s aux K M verbose h :
  let r := run perform
             (st_scan G y (LikTuple (PyStr s :: aux)) K M verbose) h in
  if mem (lower s) CONF_likelihoods
  then In (conform_dataset y M G K) (calls_of (trace r))
       /\ forall n, outcome r <> inl (InvalidLikelihoodError n)
  else outcome r = inl (InvalidLikelihoodError (lower s))
       /\ trace r = [] /\ final r = h.
Proof.
  cbv zeta. rewrite st_scan_eq, resolve_likelihood_eq. cbn.
  destruct (mem (lower s) CONF_likelihoods); cbn; auto.
  destruct (run_session_block "qtl analysis" (negb verbose)
              (scan_body G y (lower s, aux) K M verbose) h)
    as (Ho & _ & Hc).
  rewrite Ho, Hc. split.
  - unfold scan_body, session_line. resolve_names.
    destruct verbose; cbn; destruct (perform (conform_dataset y M G K) h);
      cbn; auto.
  - intros n Hn.
    pose proof (run_leaves heap perform _ _
                  (scan_body_raises G y (lower s, aux) K M verbose) h)
      as Hl.
    rewrite Hn in Hl. exact Hl.
Qed.

(** C6 (defect of the code).  [st_scan] goes on to conform the dataset
    exactly when [lik] is a bare string or a tuple headed by a string whose
    lower-cased form is in [CONF_likelihoods].  For those two forms the
    claim holds: an allowed name proceeds and never raises
    [InvalidLikelihoodError], any other name raises it on the lower-cased
    name before any collaborator is called.  For a list, which line 165
    admits beside the tuple, it does not: a list headed by a string, an
    allowed name included, ends at line 169 in the [TypeError] of adding a
    list to a tuple, before the name is even checked. *)
Theorem st_scan_proceeds_iff_name_allowed G y lik s aux K M verbose h :
  (In (conform_dataset y M G K)
      (calls_of (trace (run perform (st_scan G y lik K M verbose) h)))
   <-> exists s' aux',
         as_sequence lik = (KTuple, PyStr s' :: aux')
         /\ mem (lower s') CONF_likelihoods = true)
  /\ Forall (fun lik =>
       let r := run perform (st_scan G y lik K M verbose) h in
       if mem (lower s) CONF_likelihoods
       then In (conform_dataset y M G K) (calls_of (trace r))
            /\ forall n, outcome r <> inl (InvalidLikelihoodError n)
       else outcome r = inl (InvalidLikelihoodError (lower s))
            /\ trace r = [] /\ final r = h)
       (lik_forms s aux)
  /\ run perform (st_scan G y (LikList (PyStr s :: aux)) K M verbose) h
     = {| outcome := inl TypeError; final := h; trace := [] |}.
Proof.
  split; [|split].
  - rewrite st_scan_eq, resolve_likelihood_eq.
    destruct (as_sequence lik) as [[|] [|[s'|o] aux']]; cbn;
      try (split; [contradiction | intros (? & ? & E & _); discriminate E]).
    pose proof (st_scan_on_name G y s' aux' K M verbose h) as Hn.
    cbv zeta in Hn. rewrite st_scan_eq, resolve_likelihood_eq in Hn.
    cbn in Hn.
    destruct (mem (lower s') CONF_likelihoods) eqn:E.
    + split; [eauto|]. intros _. apply Hn.
    + destruct Hn as (_ & Ht & _). cbn in Ht |- *. split; [contradiction|].
      intros (s2 & aux2 & E2 & Hm). injection E2 as <- <-. congruence.
  - unfold lik_forms. repeat constructor.
    + exact (st_scan_on_name G y s [] K M verbose h).
    + exact (st_scan_on_name G y s aux K M verbose h).
  - reflexivity.
Qed.

(** C5, as amended.  [st_scan] validates the name only.  Whatever follows
    an allowed name in the tuple (nothing, trial counts of any length,
    entries given to a likelihood that takes none) is carried unchanged
    into the resolved likelihood; the call goes on to conform the dataset
    and never raises [InvalidLikelihoodError]. *)
Theorem st_scan_leaves_aux_unchecked G y s aux K M verbose h :
  mem (lower s) CONF_likelihoods = true ->
  let r := run perform
             (st_scan G y (LikTuple (PyStr s :: aux)) K M verbose) h in
  resolve_likelihood (LikTuple (PyStr s :: aux)) = Ret (lower s, aux)
  /\ In (conform_dataset y M G K) (calls_of (trace r))
  /\ forall n, outcome r <> inl (InvalidLikelihoodError n).
Proof.
  intros Hs. cbv zeta. split.
  - rewrite resolve_likelihood_eq. cbn. now rewrite Hs.
  - pose proof (st_scan_on_name G y s aux K M verbose h) as H.
    cbv zeta in H. now rewrite Hs in H.
Qed.

(** C9.  A bare name and the one-element tuple of that name give the same
    program, hence the same outcome, heap and trace against any
    collaborators. *)
Theorem st_scan_bare_name_is_one_tuple G y s K M verbose h :
  run perform (st_scan G y (LikObj (PyStr s)) K M verbose) h
  = run perform (st_scan G y (LikTuple [PyStr s]) K M verbose) h.
Proof. reflexivity. Qed.

Lemma st_scan_calls_no_model G y lik K M verbose h :
  forallb (fun c => negb (is_glimix c))
          (calls_of (trace (run perform (st_scan G y lik K M verbose) h)))
  = true.
Proof.
  apply forallb_forall. intros c Hc.
  pose proof (run_nodes heap perform _ _
                (st_scan_nodes G y lik K M verbose) h) as Hn.
  rewrite Forall_forall in Hn. now rewrite (Hn c Hc).
Qed.

(** Follow a run that returned: each call must have answered. *)
Ltac answered H :=
  repeat (cbn in H;
    match type of H with
    | context [perform ?c ?h] =>
        let E := fresh "E" in
        destruct (perform c h) as [[?|?] ?] eqn:E; cbn in H;
        [discriminate H|]
    end).

(** The answers of type [unit] are [tt]. *)
Ltac units :=
  repeat match goal with
         | u : ?T |- _ =>
             let T' := eval cbn in T in
             match T' with unit => destruct u end
         end.

(** A path that returns a report has followed its script on the [QS] it
    was handed. *)
Lemma dispatch_follows_script r y lik M K QS G verbose h rep :
  outcome (run perform (dispatch r y lik M K QS G verbose) h) = inr rep ->
  exists yv h1,
    perform (get_values y) h = (inr yv, h1)
    /\ if String.eqb (fst lik) "normal"
       then exists a h', follows perform h1 (lmm_script yv M QS G verbose a) h'
                         /\ rep = lmm_report r a
       else exists a h',
              follows perform h1 (glmm_script yv lik M QS G verbose a) h'
              /\ rep = glmm_report r a.
Proof.
  unfold dispatch, _perform_lmm, _perform_glmm.
  destruct (fst lik =? "normal")%string; resolve_names; intros H;
    answered H; injection H as <-; units;
    match goal with
    | E : perform (fast_scan _ _ _) _ = (inr ?p, ?hf) |- _ =>
        destruct p as [alts effs]
    end;
    eexists _, _; (split; [first [eassumption | reflexivity]|]).
  - eexists {| l_alt_lmls := _ |}, _. split.
    + cbn. repeat (eexists; split; [eassumption|]). reflexivity.
    + cbn. unfold create. rewrite add_tests_eq. reflexivity.
  - eexists {| a_alt_lmls := _ |}, _. split.
    + cbn. repeat (eexists; split; [eassumption|]). reflexivity.
    + cbn. unfold create. rewrite add_tests_eq. reflexivity.
Qed.

(** Every model of the two paths is constructed with the [QS] handed in. *)
Lemma dispatch_models_on_QS r y lik M K QS G verbose :
  nodes (fun c => qs_of c = None \/ qs_of c = Some QS)
        (dispatch r y lik M K QS G verbose).
Proof.
  unfold dispatch, _perform_lmm, _perform_glmm.
  destruct (fst lik =? "normal")%string; walk; resolve_names; cbn; auto.
Qed.

(** C4, as amended.  A call of [st_scan] factorizes at most once; never
    when the conformed [K] is [None]; exactly once, on [K], when [K] is
    there and the three finiteness checks pass, and this on every
    likelihood, with no model built and no site parameter read at any
    point of the call: the factorization is eager, not deferred.  Within
    the two paths of lines 199 to 202 the one decomposition handed in is
    shared by the null fit and the evaluation of every candidate: the
    paths do not factorize, every model they construct ([LMM],
    [GLMMExpFam], [GLMMNormal]) is constructed with that [QS], and a path
    that returns a report has fitted the model built on it and scanned all
    of [G] with the scanner obtained from that model. *)
Theorem factorization_once_and_eager :
  (forall G y lik K M verbose h,
      factorizations (trace (run perform (st_scan G y lik K M verbose) h))
      <= 1)
  /\ (forall G y lik K M verbose h l d h1,
        resolve_likelihood lik = Ret l ->
        perform (conform_dataset y M G K) h = (inr d, h1) ->
        data_K d = None ->
        factorizations (trace (run perform (st_scan G y lik K M verbose) h))
        = 0)
  /\ (forall G y lik K M verbose h l d h1 h2 k,
        resolve_likelihood lik = Ret l ->
        perform (conform_dataset y M G K) h = (inr d, h1) ->
        data_K d = Some k ->
        follows perform h1 (passes (finite_checks d)) h2 ->
        let r := run perform (st_scan G y lik K M verbose) h in
        factorizations (trace r) = 1
        /\ In (economic_qs k) (calls_of (trace r))
        /\ forallb (fun c => negb (is_glimix c)) (calls_of (trace r)) = true)
  /\ (forall r y lik M K QS G verbose h,
        factorizations
          (trace (run perform (dispatch r y lik M K QS G verbose) h)) = 0)
  /\ (forall r y lik M K QS G verbose h,
        Forall (fun c => qs_of c = None \/ qs_of c = Some QS)
               (calls_of (trace (run perform
                                   (dispatch r y lik M K QS G verbose) h))))
  /\ (forall r y lik M K QS G verbose h rep,
        outcome (run perform (dispatch r y lik M K QS G verbose) h) = inr rep ->
        exists yv h1,
          perform (get_values y) h = (inr yv, h1)
          /\ if String.eqb (fst lik) "normal"
             then exists a h',
                    follows perform h1 (lmm_script yv M QS G verbose a) h'
                    /\ rep = lmm_report r a
             else exists a h',
                    follows perform h1 (glmm_script yv lik M QS G verbose a) h'
                    /\ rep = glmm_report r a).
Proof.
  split; [|split; [|split; [|split; [|split]]]].
  - intros. apply run_at_most, st_scan_factorizes_once.
  - intros G y lik K M verbose h l d h1 Hres Hconf EK.
    unfold factorizations. rewrite st_scan_eq, Hres. cbn.
    destruct (run_session_block "qtl analysis" (negb verbose)
                (scan_body G y l K M verbose) h) as (_ & _ & Hc).
    rewrite Hc. clear Hc.
    unfold scan_body, session_line, factorize, require_finite.
    resolve_names.
    destruct verbose; cbn; answer Hconf; rewrite EK;
      repeat (cbn;
        match goal with
        | |- context [perform ?c ?h] => destruct (perform c h) as [[?|?] ?]
        | |- context [if negb ?b then _ else _] => destruct b
        end); reflexivity.
  - intros G y lik K M verbose h l d h1 h2 k Hres Hconf EK Hfol.
    cbv zeta. split; [|split]; [| |apply st_scan_calls_no_model].
    + unfold factorizations. rewrite st_scan_eq, Hres. cbn.
      destruct (run_session_block "qtl analysis" (negb verbose)
                  (scan_body G y l K M verbose) h) as (_ & _ & Hc).
      rewrite Hc. clear Hc.
      unfold finite_checks in Hfol. rewrite EK in Hfol. cbn in Hfol.
      destruct Hfol as (h3 & Hy & h4 & HM & h5 & HK & ->).
      unfold scan_body, session_line, factorize, require_finite.
      resolve_names.
      destruct verbose; cbn; answer Hconf; answer Hy; answer HM;
        rewrite EK; cbn; answer HK;
        repeat (cbn;
          match goal with
          | |- context [perform ?c ?h] =>
              destruct (perform c h) as [[?|?] ?]
          end); reflexivity.
    + rewrite st_scan_eq, Hres. cbn.
      destruct (run_session_block "qtl analysis" (negb verbose)
                  (scan_body G y l K M verbose) h) as (_ & _ & Hc).
      rewrite Hc. clear Hc.
      unfold finite_checks in Hfol. rewrite EK in Hfol. cbn in Hfol.
      destruct Hfol as (h3 & Hy & h4 & HM & h5 & HK & ->).
      unfold scan_body, session_line, factorize, require_finite.
      resolve_names.
      destruct verbose; cbn; answer Hconf; answer Hy; answer HM;
        rewrite EK; cbn; answer HK;
        match goal with
        | |- context [perform (economic_qs k) ?hk] =>
            destruct (perform (economic_qs k) hk) as [[?|?] ?]
        end; cbn; auto 10.
  - intros r y lik M K QS G verbose h.
    pose proof (run_at_most heap perform is_economic_qs _ 0 h
                  (dispatch_never_factorizes r y lik M K QS G verbose)) as H.
    unfold factorizations. lia.
  - intros. apply run_nodes, dispatch_models_on_QS.
  - intros r y lik M K QS G verbose h rep.
    apply dispatch_follows_script.
Qed.

(** Step two runs that differ in the toggle through the same answers. *)
Ltac lockstep Hadv :=
  destruct Hadv as (Hlmm & Hexp & Hnor & Hscan);
  repeat (cbn;
    match goal with
    | |- context [perform (LMM_fit ?o true) ?h] => rewrite (Hlmm o h)
    | |- context [perform (GLMMExpFam_fit ?o true) ?h] =>
        rewrite (Hexp o h)
    | |- context [perform (GLMMNormal_fit ?o true) ?h] =>
        rewrite (Hnor o h)
    | |- context [perform (fast_scan ?o ?G true) ?h] =>
        rewrite (Hscan o G h)
    | |- context [perform ?c ?h] => destruct (perform c h) as [[?|?] ?]
    | |- context [match data_K ?d with _ => _ end] => destruct (data_K d)
    | |- context [if negb ?b then _ else _] => destruct b
    | |- _ /\ _ => split
    end); auto.

(** C7.  With collaborators for which the toggle is advisory, [st_scan]
    called with [verbose=True] and with [verbose=False] ends the same
    way, leaves the same heap and makes the same calls; so do the two
    paths of lines 199 to 202, whose report is therefore the same. *)
Theorem verbose_changes_display_only :
  verbosity_advisory perform ->
  (forall G y lik K M h,
      outcome (run perform (st_scan G y lik K M true) h)
      = outcome (run perform (st_scan G y lik K M false) h)
      /\ final (run perform (st_scan G y lik K M true) h)
         = final (run perform (st_scan G y lik K M false) h)
      /\ calls_of (trace (run perform (st_scan G y lik K M true) h))
         = calls_of (trace (run perform (st_scan G y lik K M false) h)))
  /\ (forall r y lik M K QS G h,
        outcome (run perform (dispatch r y lik M K QS G true) h)
        = outcome (run perform (dispatch r y lik M K QS G false) h)
        /\ final (run perform (dispatch r y lik M K QS G true) h)
           = final (run perform (dispatch r y lik M K QS G false) h)).
Proof.
  intros Hadv. split.
  - intros G y lik K M h.
    rewrite !st_scan_eq, resolve_likelihood_eq.
    destruct (as_sequence lik) as [[|] [|[s|o] aux]]; cbn; auto.
    destruct (mem (lower s) CONF_likelihoods); cbn; auto.
    unfold scan_body, session_line, factorize, require_finite.
    resolve_names. lockstep Hadv.
  - intros r y lik M K QS G h.
    unfold dispatch, _perform_lmm, _perform_glmm. resolve_names.
    destruct (fst lik =? "normal")%string; lockstep Hadv.
Qed.

(** C10.  [_perform_glmm] returns a report exactly when every
    collaborator answers along the two-stage script, and the report is
    then [glmm_report]: its null log marginal likelihood is what the
    pseudo-model's scanner answers after [set_scale(1.0)], its beta, v1
    and v0 are read from the pseudo-model; of the exact generalized model
    only the fit and the site parameters are used. *)
Theorem glmm_null_from_pseudo_model r y lik M K QS G verbose h rep :
  outcome (run perform (_perform_glmm r y lik M K QS G verbose) h) = inr rep
  <-> exists a h',
        follows perform h (glmm_script y lik M QS G verbose a) h'
        /\ rep = glmm_report r a.
Proof.
  unfold _perform_glmm. resolve_names. split.
  - intros H. answered H.
    injection H as <-.
    repeat match goal with
           | u : ?T |- _ =>
               let T' := eval cbn in T in
               match T' with unit => destruct u end
           end.
    match goal with
    | E : perform (fast_scan _ _ _) _ = (inr ?p, ?hf) |- _ =>
        destruct p as [alts effs]
    end.
    eexists {| a_alt_lmls := _ |}, _. split.
    + cbn. repeat (eexists; split; [eassumption|]). reflexivity.
    + cbn. unfold create. rewrite add_tests_eq. reflexivity.
  - intros (a & h' & Hf & ->). cbn in Hf.
    repeat match type of Hf with
           | exists _, _ => let E := fresh "E" in
                            destruct Hf as (? & E & Hf); cbn in E
           end.
    cbn.
    repeat match goal with
           | E : perform ?c ?h = _ |- context [perform ?c ?h] =>
               rewrite E; cbn
           end.
    unfold create. rewrite add_tests_eq. reflexivity.
Qed.

End Claims.

(** ** The stand-in collaborators honour the contracts *)

Lemma stub_verbosity_advisory : verbosity_advisory Stub.perform.
Proof. repeat split. Qed.

(** ** The code on small inputs *)

Example lower_mixed_case : lower "PoiSSon" = "poisson".
Proof. reflexivity. Qed.

Example resolve_bare_name :
  resolve_likelihood (LikObj (PyStr "Normal")) = Ret ("normal", []).
Proof. reflexivity. Qed.

Example resolve_binomial_with_trials :
  resolve_likelihood (LikTuple [PyStr "Binomial"; PyObj 7%positive])
  = Ret ("binomial", [PyObj 7%positive]).
Proof. reflexivity. Qed.

Example resolve_unknown_name :
  resolve_likelihood (LikObj (PyStr "Gamma"))
  = Raise (InvalidLikelihoodError "gamma").
Proof. reflexivity. Qed.

(** Line 169 concatenates a tuple with [lik[1:]]; for a list that is a
    [TypeError], although line 165 lets lists through. *)
Example resolve_list :
  resolve_likelihood (LikList [PyStr "normal"]) = Raise TypeError.
Proof. reflexivity. Qed.

Example resolve_empty_tuple :
  resolve_likelihood (LikTuple []) = Raise IndexError.
Proof. reflexivity. Qed.

(** The two-stage path on its own, against the stand-ins: three
    candidates, numbered in order; the null state holds what the scanner
    and the pseudo-model answered. *)
Example perform_glmm_on_stub :
  let r := ScanResultFactory ("poisson", []) 4%positive 2%positive in
  outcome (run Stub.perform
             (_perform_glmm r 1 ("poisson", []) 4 (Some 3) (Some 3) 2 false)
             Stub.h0)%positive
  = inr {| likelihood := ("poisson", []);
           covariate_labels := 4%positive;
           candidate_labels := 2%positive;
           null := Some {| log_marginal_likelihood := Stub.pseudo_lml_value;
                           beta := 9%positive;
                           v1 := Stub.v1_value; v0 := Stub.v0_value |};
           candidates :=
             [ {| index := 0; effect_size := Stub.two;
                  alt_log_marginal_likelihood := Stub.lml_value |};
               {| index := 1; effect_size := float_1_0;
                  alt_log_marginal_likelihood := Stub.lml_value |};
               {| index := 2; effect_size := Stub.two;
                  alt_log_marginal_likelihood := Stub.lml_value |} ] |}.
Proof. vm_compute. reflexivity. Qed.

(** The linear path on its own: the fit, no site parameter. *)
Example perform_lmm_on_stub :
  let r := ScanResultFactory ("normal", []) 4%positive 2%positive in
  calls_of (trace (run Stub.perform
                     (_perform_lmm r 1 4 (Some 3) 2 false) Stub.h0))%positive
  = [get_values 4; LMM 1 4 (Some 3); LMM_fit 5 false; LMM_lml 5; LMM_beta 5;
     LMM_v1 5; LMM_v0 5; LMM_get_fast_scanner 5; get_data 2;
     fast_scan 7 2 false]%positive.
Proof. vm_compute. reflexivity. Qed.

(** ** The claims at concrete inputs *)

(** C1 (defect of the code).  [st_scan] never returns a report: whatever
    the input and the collaborators, it ends by raising.  On the scan of
    the docstring (Poisson outcome, [K] and [M] given, [verbose=False]) the
    exception is the [NameError] of line 197, whose name
    [ST_ScanResultFactory] is not among those that lines 1 to 8 import. *)
Theorem st_scan_never_returns_report :
  (forall (heap : Type)
          (perform : forall c : call, heap -> (foreign + ret_type c) * heap)
          G y lik K M verbose h,
      exists e,
        outcome (run perform (st_scan G y lik K M verbose) h) = inl e)
  /\ outcome (run Stub.perform
               (st_scan 2 1 (LikObj (PyStr "poisson")) (Some 3) (Some 4)
                        false)%positive Stub.h0)
     = inl (NameError "ST_ScanResultFactory").
Proof.
  split.
  - intros heap perform G y lik K M verbose h.
    exact (run_leaves heap perform _ _
             (st_scan_leaves G y lik K M verbose) h).
  - vm_compute. reflexivity.
Qed.

(** C3 (defect of the code).  [st_scan] reaches neither path: whatever the
    input and the collaborators, it makes no call into glimix_core.  With
    "normal" as with "poisson" it stops at line 197 on the [NameError],
    having conformed, checked, factorized and normalised only. *)
Theorem st_scan_reaches_neither_path :
  (forall (heap : Type)
          (perform : forall c : call, heap -> (foreign + ret_type c) * heap)
          G y lik K M verbose h,
      forallb (fun c => negb (is_glimix c))
              (calls_of (trace (run perform (st_scan G y lik K M verbose) h)))
      = true)
  /\ Forall (fun name =>
       let r := run Stub.perform
                  (st_scan 2 1 (LikObj (PyStr name)) (Some 3) (Some 4)
                           false)%positive Stub.h0 in
       outcome r = inl (NameError "ST_ScanResultFactory")
       /\ calls_of (trace r)
          = [conform_dataset 1 (Some 4) 2 (Some 3); is_all_finite 1;
             is_all_finite 4; is_all_finite 3; economic_qs 3;
             normalise_extreme_values 1 (name, [])]%positive)
       ["normal"; "poisson"].
Proof.
  split.
  - intros. apply st_scan_calls_no_model.
  - repeat constructor; vm_compute; reflexivity.
Qed.

(** C4, counterexample.  On a Poisson scan with [K] given the covariance
    is factorized although no site parameter has been derived: the
    factorization is not deferred. *)
Lemma factorization_not_deferred :
  ~ factorization_deferred
      (trace (run Stub.perform
                (st_scan 2 1 (LikObj (PyStr "poisson")) (Some 3) (Some 4)
                         false)%positive Stub.h0)).
Proof.
  intros H.
  destruct (H [Called (conform_dataset 1 (Some 4) 2 (Some 3));
               Called (is_all_finite 1); Called (is_all_finite 4);
               Called (is_all_finite 3)]%positive
              3%positive
              [Called (normalise_extreme_values 1 ("poisson", []))]%positive
              eq_refl) as [glmm Hin].
  cbn in Hin. repeat (destruct Hin as [Hin|Hin]; [discriminate Hin|]).
  exact Hin.
Qed.

(** C5, counterexample.  A Binomial likelihood without trial counts is not
    turned down as an invalid likelihood: the name passes, the dataset is
    conformed and the call goes as far as line 197. *)
Lemma binomial_without_trials_not_rejected :
  let r := run Stub.perform
             (st_scan 2 1 (LikObj (PyStr "binomial")) (Some 3) (Some 4)
                      false)%positive Stub.h0 in
  ~ (exists n, outcome r = inl (InvalidLikelihoodError n))
  /\ In (conform_dataset 1 (Some 4) 2 (Some 3))%positive (calls_of (trace r)).
Proof.
  cbv zeta. split.
  - intros [n Hn]. vm_compute in Hn. discriminate Hn.
  - vm_compute. auto.
Qed.

(** ** Witnesses *)

(** C2 at an input: a NaN in [y], a Normal likelihood, no covariates. *)
Lemma st_scan_nonfinite_raises_before_fit_witness :
  let r := run Stub.perform
             (st_scan 2 1 (LikObj (PyStr "Normal")) (Some 3) None
                      false)%positive Stub.h_nan in
  outcome r = inl (ValueError "Outcome must have finite values only.")
  /\ forallb is_validation (calls_of (trace r)) = true.
Proof.
  apply (st_scan_nonfinite_raises_before_fit Stub.heap Stub.perform
           2 1 (LikObj (PyStr "Normal")) (Some 3) None false Stub.h_nan
           ("normal", [])
           {| data_y := 1; data_M := 5; data_G := 2; data_K := Some 3 |}
           ((5, [float_1_0; float_1_0]) :: Stub.h_nan))%positive.
  - reflexivity.
  - reflexivity.
  - exists [], 1%positive,
      [(5%positive, "Covariates must have finite values only.");
       (3%positive, "Covariate matrix must have finite values only.")],
      ((5%positive, [float_1_0; float_1_0]) :: Stub.h_nan).
    split; [reflexivity|]. split; reflexivity.
Defined.

(** C4, as amended, at an input: a Poisson scan with [K] given. *)
Lemma factorization_once_and_eager_witness :
  let r := run Stub.perform
             (st_scan 2 1 (LikObj (PyStr "poisson")) (Some 3) (Some 4)
                      false)%positive Stub.h0 in
  factorizations (trace r) = 1
  /\ In (economic_qs 3%positive) (calls_of (trace r))
  /\ forallb (fun c => negb (is_glimix c)) (calls_of (trace r)) = true.
Proof.
  destruct (factorization_once_and_eager Stub.heap Stub.perform)
    as (_ & _ & H & _).
  apply (H 2 1 (LikObj (PyStr "poisson")) (Some 3) (Some 4) false Stub.h0
           ("poisson", [])
           {| data_y := 1; data_M := 4; data_G := 2; data_K := Some 3 |}
           Stub.h0 Stub.h0 3)%positive.
  - reflexivity.
  - reflexivity.
  - reflexivity.
  - cbn. repeat (eexists; split; [reflexivity|]). reflexivity.
Defined.

(** C5, as amended, at an input: "Binomial" without trial counts. *)
Lemma st_scan_leaves_aux_unchecked_witness :
  let r := run Stub.perform
             (st_scan 2 1 (LikTuple [PyStr "Binomial"]) (Some 3) (Some 4)
                      false)%positive Stub.h0 in
  resolve_likelihood (LikTuple [PyStr "Binomial"]) = Ret ("binomial", [])
  /\ In (conform_dataset 1 (Some 4) 2 (Some 3))%positive (calls_of (trace r))
  /\ forall n, outcome r <> inl (InvalidLikelihoodError n).
Proof.
  apply (st_scan_leaves_aux_unchecked Stub.heap Stub.perform
           2 1 "Binomial" [] (Some 3) (Some 4) false Stub.h0)%positive.
  reflexivity.
Defined.

(** C7 at an input: the Poisson path with and without the display. *)
Lemma verbose_changes_display_only_witness :
  let r := ScanResultFactory ("poisson", []) 4%positive 2%positive in
  outcome (run Stub.perform
             (dispatch r 1 ("poisson", []) 4 (Some 3) (Some 3) 2 true)
             Stub.h0)%positive
  = outcome (run Stub.perform
               (dispatch r 1 ("poisson", []) 4 (Some 3) (Some 3) 2 false)
               Stub.h0)%positive.
Proof.
  cbv zeta.
  apply (proj2 (verbose_changes_display_only Stub.heap Stub.perform
                  stub_verbosity_advisory)).
Defined.

(** * Beyond the claims *)

(** ** Likelihood resolution, lines 165 to 170 *)

Lemma mem_In (s : string) (l : list string) : mem s l = true <-> In s l.
Proof.
  unfold mem. rewrite existsb_exists. split.
  - intros (x & Hx & E). apply String.eqb_eq in E. now subst.
  - intros H. exists s. split; [exact H|apply String.eqb_refl].
Qed.

(** X1.  When the likelihood resolves, the name that lines 172 to 207 work
    with is one of the five allowed names, already in lower case, and it
    comes from a tuple (or a bare value) headed by a string, whose other
    entries are the auxiliary part. *)
Theorem resolve_likelihood_returns_allowed_name lik name aux :
  resolve_likelihood lik = Ret (name, aux) ->
  In name CONF_likelihoods
  /\ lower name = name
  /\ exists s, as_sequence lik = (KTuple, PyStr s :: aux) /\ name = lower s.
Proof.
  rewrite resolve_likelihood_eq.
  destruct (as_sequence lik) as [[|] [|[s|o] rest]]; try discriminate.
  destruct (mem (lower s) CONF_likelihoods) eqn:E; [|discriminate].
  intros H. injection H as <- <-.
  apply mem_In in E. repeat split; eauto.
  cbn in E.
  repeat (destruct E as [E|E]; [rewrite <- E; reflexivity|]).
  contradiction.
Qed.

Lemma resolve_likelihood_returns_allowed_name_witness :
  In "binomial" CONF_likelihoods
  /\ lower "binomial" = "binomial"
  /\ exists s,
       as_sequence (LikTuple [PyStr "BinoMial"; PyObj 7%positive])
       = (KTuple, [PyStr s; PyObj 7%positive])
       /\ "binomial" = lower s.
Proof.
  apply (resolve_likelihood_returns_allowed_name
           (LikTuple [PyStr "BinoMial"; PyObj 7%positive])
           "binomial" [PyObj 7%positive]).
  reflexivity.
Defined.

Section More.

Variable heap : Type.
Variable perform : forall c : call, heap -> (foreign + ret_type c) * heap.

Ltac answer H :=
  match type of H with
  | perform ?c ?h = _ => rewrite H; cbn
  | fst (perform ?c ?h) = _ =>
      let r := fresh "r" in
      let hz := fresh "h" in
      destruct (perform c h) as [r hz]; cbn in H; subst r; cbn
  end.

Ltac answered H :=
  repeat (cbn in H;
    match type of H with
    | context [perform ?c ?h] =>
        let E := fresh "E" in
        destruct (perform c h) as [[?|?] ?] eqn:E; cbn in H;
        [discriminate H|]
    end).

(** X2.  A malformed [lik] is turned down before anything else happens: no
    collaborator is called, nothing is displayed, the heap is untouched.
    A list is never accepted, although line 165 lets it through: empty it
    gives [IndexError], headed by an object without [lower] it gives
    [AttributeError], and headed by a string (an allowed name included)
    the [TypeError] of line 169.
    An empty tuple gives [IndexError]; an object that has no [lower]
    attribute, bare or at the head of a tuple, gives [AttributeError]. *)
Theorem st_scan_rejects_malformed_lik G y K M verbose h :
  (forall l,
      run perform (st_scan G y (LikList l) K M verbose) h
      = {| outcome := inl match l with
                          | [] => IndexError
                          | PyObj _ :: _ => AttributeError "lower"
                          | PyStr _ :: _ => TypeError
                          end;
           final := h; trace := [] |})
  /\ (forall o aux,
        Forall (fun bad =>
          run perform (st_scan G y (fst bad) K M verbose) h
          = {| outcome := inl (snd bad); final := h; trace := [] |})
          [ (LikObj (PyObj o), AttributeError "lower");
            (LikTuple (PyObj o :: aux), AttributeError "lower");
            (LikTuple [], IndexError) ]).
Proof.
  split.
  - intros l. rewrite st_scan_eq, resolve_likelihood_eq.
    destruct l as [|[s|o] l]; reflexivity.
  - intros o aux. repeat constructor.
Qed.

(** X3.  The name is case-insensitive: two names with the same lower-case
    form give the same run, whatever the auxiliary part and the
    collaborators. *)
Theorem st_scan_case_insensitive G y s s' aux K M verbose h :
  lower s = lower s' ->
  run perform (st_scan G y (LikTuple (PyStr s :: aux)) K M verbose) h
  = run perform (st_scan G y (LikTuple (PyStr s' :: aux)) K M verbose) h.
Proof.
  intros E. rewrite !st_scan_eq, !resolve_likelihood_eq. cbn. now rewrite E.
Qed.

Lemma scan_body_exceptions G y lik K M verbose :
  leaves (fun o => match o with
                   | inl e => st_scan_exception e
                   | inr _ => False
                   end) (scan_body G y lik K M verbose).
Proof.
  unfold scan_body, session_line, factorize, require_finite.
  destruct verbose; walk; resolve_names; cbn; auto 6.
Qed.

(** X4.  Every run of [st_scan] ends with one of these exceptions:
    [IndexError], [AttributeError] on [lower] or [TypeError] for a
    malformed [lik]; [InvalidLikelihoodError] on a name that is not
    allowed; [ValueError] with one of the three messages of lines 183, 186
    and 190; [NameError] on [ST_ScanResultFactory]; or an exception of a
    collaborator, passed on as it is. *)
Theorem st_scan_exceptions G y lik K M verbose h :
  exists e, outcome (run perform (st_scan G y lik K M verbose) h) = inl e
            /\ st_scan_exception e.
Proof.
  assert (H : leaves (fun o => match o with
                               | inl e => st_scan_exception e
                               | inr _ => False
                               end) (st_scan G y lik K M verbose)).
  { rewrite st_scan_eq, resolve_likelihood_eq.
    destruct (as_sequence lik) as [[|] [|[s|o] aux]]; cbn; auto.
    destruct (mem (lower s) CONF_likelihoods) eqn:E; cbn; auto.
    apply session_block_leaves, scan_body_exceptions. }
  apply (run_leaves heap perform) with (h := h) in H.
  destruct (outcome (run perform (st_scan G y lik K M verbose) h)) as [e|r];
    [eauto | contradiction].
Qed.

(** X6.  On an input that passes validation (the likelihood resolves, the
    dataset conforms, the arrays are finite, the factorization and the
    normalisation succeed) [st_scan] makes exactly the calls of
    [validation_script], in that order, and then raises the [NameError] of
    line 197; the heap is as the normalisation left it. *)
Theorem st_scan_valid_input_stops_at_factory
    G y lik K M verbose h l d qs ynorm h' :
  resolve_likelihood lik = Ret l ->
  follows perform h (validation_script y M G K l d qs ynorm) h' ->
  let r := run perform (st_scan G y lik K M verbose) h in
  outcome r = inl (NameError "ST_ScanResultFactory")
  /\ final r = h'
  /\ calls_of (trace r)
     = map asked (validation_script y M G K l d qs ynorm).
Proof.
  intros Hres Hfol. cbv zeta. rewrite st_scan_eq, Hres. cbn.
  destruct (run_session_block heap perform "qtl analysis" (negb verbose)
              (scan_body G y l K M verbose) h) as (Ho & Hf & Hc).
  rewrite Ho, Hf, Hc. clear Ho Hf Hc.
  unfold validation_script, finite_checks in *.
  destruct Hfol as (h1 & Hconf & Hfol). cbn in Hconf.
  unfold scan_body, session_line, factorize, require_finite.
  resolve_names.
  destruct (data_K d) as [k|] eqn:EK; cbn in Hfol.
  - destruct Hfol as (h2 & Hy & h3 & HM & h4 & HK & h5 & Hqs & h6 & Hn & ->).
    cbn in Hy, HM, HK, Hqs, Hn.
    destruct verbose; cbn; answer Hconf; answer Hy; answer HM;
      rewrite EK; cbn; answer HK; answer Hqs; answer Hn; auto.
  - destruct Hfol as (h2 & Hy & h3 & HM & h6 & Hn & ->).
    cbn in Hy, HM, Hn.
    destruct verbose; cbn; answer Hconf; answer Hy; answer HM;
      rewrite EK; cbn; answer Hn; auto.
Qed.

(** ** The paths, lines 210 to 260 *)

(** X7.  [_perform_lmm] returns a report exactly when every collaborator
    answers along [lmm_script]: the model is built on [y], the values of
    [M] and [QS] and fitted once; the null state is its [lml()], [beta],
    [v1] and [v0]; its scanner scans [G.data]; and the report is
    [lmm_report]. *)
Theorem lmm_report_iff r y M QS G verbose h rep :
  outcome (run perform (_perform_lmm r y M QS G verbose) h) = inr rep
  <-> exists a h',
        follows perform h (lmm_script y M QS G verbose a) h'
        /\ rep = lmm_report r a.
Proof.
  unfold _perform_lmm. resolve_names. split.
  - intros H. answered H.
    injection H as <-.
    repeat match goal with
           | u : ?T |- _ =>
               let T' := eval cbn in T in
               match T' with unit => destruct u end
           end.
    match goal with
    | E : perform (fast_scan _ _ _) _ = (inr ?p, ?hf) |- _ =>
        destruct p as [alts effs]
    end.
    eexists {| l_alt_lmls := _ |}, _. split.
    + cbn. repeat (eexists; split; [eassumption|]). reflexivity.
    + cbn. unfold create. rewrite add_tests_eq. reflexivity.
  - intros (a & h' & Hf & ->). cbn in Hf.
    repeat match type of Hf with
           | exists _, _ => let E := fresh "E" in
                            destruct Hf as (? & E & Hf); cbn in E
           end.
    cbn.
    repeat match goal with
           | E : perform ?c ?h = _ |- context [perform ?c ?h] =>
               rewrite E; cbn
           end.
    unfold create. rewrite add_tests_eq. reflexivity.
Qed.






Lemma dispatch_fits_once r y lik M K QS G verbose :
  at_most is_lmm_fit 1 (dispatch r y lik M K QS G verbose)
  /\ at_most is_exact_fit 1 (dispatch r y lik M K QS G verbose)
  /\ at_most is_pseudo_fit 1 (dispatch r y lik M K QS G verbose)
  /\ at_most is_fit 2 (dispatch r y lik M K QS G verbose).
Proof.
  unfold dispatch, _perform_lmm, _perform_glmm.
  destruct (fst lik =? "normal")%string; walk; resolve_names; cbn; auto.
Qed.

(** X9.  No fit is tried again: along any run of lines 199 to 202, however
    the collaborators answer, [LMM.fit], [GLMMExpFam.fit] and
    [GLMMNormal.fit] are each called at most once, and at most two fits are
    made in all. *)
Theorem paths_fit_once r y lik M K QS G verbose h :
  let fits P := List.length (filter P (calls_of (trace
                  (run perform (dispatch r y lik M K QS G verbose) h)))) in
  fits is_lmm_fit <= 1 /\ fits is_exact_fit <= 1 /\ fits is_pseudo_fit <= 1
  /\ fits is_fit <= 2.
Proof.
  cbv zeta.
  destruct (dispatch_fits_once r y lik M K QS G verbose)
    as (H1 & H2 & H3 & H4).
  repeat split; now apply run_at_most.
Qed.

End More.

Lemma enumerate_from_nth {A : Type} (l : list A) :
  forall i j x, nth_error l j = Some x ->
                nth_error (enumerate_from i l) j = Some (i + j, x).
Proof.
  induction l as [|a l IH]; intros i [|j] x H; cbn in *; try discriminate.
  - injection H as ->. now rewrite Nat.add_0_r.
  - rewrite (IH (S i) j x H). f_equal. f_equal. lia.
Qed.

Lemma combine_nth_error {A B : Type} (l : list A) :
  forall (l' : list B) i a b,
    nth_error l i = Some a -> nth_error l' i = Some b ->
    nth_error (combine l l') i = Some (a, b).
Proof.
  induction l as [|x l IH]; intros [|x' l'] [|i] a b Ha Hb;
    cbn in *; try discriminate.
  - now injection Ha as ->; injection Hb as ->.
  - now apply IH.
Qed.

(** X10.  The loop of lines 227 and 228 (and 257 and 258) adds, for every
    position that both arrays of the scanner have, one result that carries
    the position as its index, the effect size of that position and the
    log marginal likelihood of that position; it adds as many results as
    the shorter array is long, after those the factory already has, and
    leaves the null state as it is. *)
Theorem loop_pairs_statistics_by_position r alt_lmls effsizes i lml eff :
  nth_error alt_lmls i = Some lml ->
  nth_error effsizes i = Some eff ->
  let r' := add_tests r (enumerate (zip alt_lmls effsizes)) in
  nth_error (candidates r') (List.length (candidates r) + i)
  = Some {| index := i; effect_size := eff;
            alt_log_marginal_likelihood := lml |}
  /\ List.length (candidates r')
     = List.length (candidates r)
       + Nat.min (List.length alt_lmls) (List.length effsizes)
  /\ firstn (List.length (candidates r)) (candidates r') = candidates r
  /\ null r' = null r.
Proof.
  intros Ha He. cbv zeta. rewrite add_tests_eq. cbn.
  repeat split.
  - rewrite nth_error_app2 by lia.
    replace (List.length (candidates r) + i - List.length (candidates r))
      with i by lia.
    rewrite nth_error_map. unfold enumerate, zip.
    rewrite (enumerate_from_nth _ 0 i (lml, eff)
               (combine_nth_error _ _ i lml eff Ha He)).
    reflexivity.
  - rewrite length_app, length_map. f_equal.
    unfold enumerate, zip.
    rewrite <- (length_map fst), enumerate_from_indices, length_seq.
    apply length_combine.
  - rewrite firstn_app, Nat.sub_diag, firstn_all. cbn. apply app_nil_r.
Qed.

(** ** The tables of [_conf.py] *)

(** Decide which key of a table [k] is. *)
Ltac by_key k :=
  repeat match goal with
         | |- context [String.eqb k ?lit] =>
             destruct (String.eqb_spec k lit); [subst k|]
         | H : context [String.eqb k ?lit] |- _ =>
             destruct (String.eqb_spec k lit); [subst k|]
         end.

(** X11.  [varname_to_target] and [target_to_varname] are inverse to each
    other: a variable name is sent to a target exactly when that target is
    sent back to the name. *)
Theorem varname_target_inverse k v :
  dict_get CONF_varname_to_target k = Some v
  <-> dict_get CONF_target_to_varname v = Some k.
Proof.
  split; intros H; cbn in H.
  - by_key k; cbn in H; try discriminate; injection H as <-; reflexivity.
  - by_key v; cbn in H; try discriminate; injection H as <-; reflexivity.
Qed.

(** X12.  [data_synonym] is the two maps put together: it sends a key to a
    value exactly when [varname_to_target] or [target_to_varname] does. *)
Theorem data_synonym_is_both_maps k v :
  dict_get CONF_data_synonym k = Some v
  <-> dict_get CONF_varname_to_target k = Some v
      \/ dict_get CONF_target_to_varname k = Some v.
Proof.
  split.
  - intros H. cbn in H.
    by_key k; cbn in H; try discriminate; injection H as <-; cbn; auto.
  - intros [H|H]; cbn in H;
      by_key k; cbn in H; try discriminate; injection H as <-; reflexivity.
Qed.

(** X13.  The axis of a dimension is its position: when the dimension at
    position [i] of a target's [data_dims] has an entry in [dim_axis], the
    entry is [i]. *)
Theorem dim_axis_is_position target dims i name axis :
  dict_get CONF_data_dims target = Some dims ->
  nth_error dims i = Some name ->
  dict_get CONF_dim_axis name = Some axis ->
  axis = i.
Proof.
  intros Hd Hn Ha. cbn in Hd.
  by_key target; cbn in Hd; try discriminate; injection Hd as <-;
    destruct i as [|[|[|i]]]; cbn in Hn; try discriminate;
    injection Hn as <-; cbn in Ha; congruence.
Qed.

(** X14.  The one dimension of [data_dims] that [dim_axis] has no entry
    for is "inter", used by the targets "inter0" and "inter1". *)
Theorem only_inter_has_no_axis target dims name :
  dict_get CONF_data_dims target = Some dims ->
  In name dims ->
  dict_get CONF_dim_axis name = None ->
  name = "inter" /\ (target = "inter0" \/ target = "inter1").
Proof.
  intros Hd Hn Ha. cbn in Hd.
  by_key target; cbn in Hd; try discriminate; injection Hd as <-;
    cbn in Hn; repeat (destruct Hn as [Hn|Hn]; [subst name|]);
    try contradiction; cbn in Ha; try discriminate; auto.
Qed.

(** X15.  The targets are the keys of [data_dims]; there are six of them,
    the name listed twice at lines 3 to 13 counting once. *)
Theorem targets_are_the_keys_of_data_dims t :
  (In t CONF_targets <-> dict_get CONF_data_dims t <> None)
  /\ List.length CONF_targets = 6.
Proof.
  split; [|reflexivity]. split.
  - intros H. vm_compute in H.
    repeat (destruct H as [H|H]; [subst t; discriminate|]). contradiction.
  - intros H. cbn in H.
    by_key t; try (vm_compute; tauto); now contradiction H.
Qed.

(** ** [limix/qtl/__init__.py] *)

(** X16.  [__all__] lists the names that the module imports, each once;
    [st_scan] is not among them. *)
Theorem qtl_all_is_what_is_imported n :
  (In n qtl_all <-> In n (map snd qtl_imports))
  /\ NoDup qtl_all
  /\ ~ In "st_scan" qtl_all.
Proof.
  split; [reflexivity|]. split.
  - repeat constructor; cbn; intros H;
      repeat (destruct H as [H|H]; [discriminate H|]); contradiction.
  - cbn. intros H.
    repeat (destruct H as [H|H]; [discriminate H|]); contradiction.
Qed.

(** ** [setup.py] *)

(** X17.  [setup_requires] is cython and numpy, followed by pytest-runner
    exactly when the command line has one of pytest, test and ptr. *)
Theorem setup_requires_pytest_runner argv :
  (In "pytest-runner>=2.9" (setup_requires argv)
   <-> exists a, In a argv /\ In a ["pytest"; "test"; "ptr"])
  /\ firstn 2 (setup_requires argv) = ["cython"; "numpy"]
  /\ skipn 2 (setup_requires argv) = pytest_runner argv.
Proof.
  split; [|split; reflexivity].
  unfold setup_requires, pytest_runner, needs_pytest.
  change (pyset ["pytest"; "test"; "ptr"]) with ["pytest"; "test"; "ptr"].
  cbn [filter].
  destruct (mem "pytest" argv) eqn:E1; [|destruct (mem "test" argv) eqn:E2;
    [|destruct (mem "ptr" argv) eqn:E3]]; cbn.
  - split; [intros _|tauto]. exists "pytest". rewrite <- mem_In. cbn. auto.
  - split; [intros _|tauto]. exists "test". rewrite <- mem_In. cbn. auto.
  - split; [intros _|tauto]. exists "ptr". rewrite <- mem_In. cbn. auto.
  - split.
    + intros [H|[H|[]]]; discriminate H.
    + intros (a & Ha & [<-|[<-|[<-|[]]]]); apply mem_In in Ha; congruence.
Qed.

Section SetupPackageFacts.

Variable script_dir : string -> string -> string.
Variable find_packages : process -> (foreign + list string) * process.
Variable setup : metadata -> process -> (foreign + unit) * process.
Variable long_description : string.

(** X18.  When [setup] is reached, leaves [sys.path] with an entry to
    remove and the former working directory in existence, [setup_package]
    ends as [setup] did, whether that is by returning or by raising, back
    in the former working directory and with the head of [sys.path]
    removed. *)
Theorem setup_package_restores st argv0 rest pkgs st3 res st4 p ps :
  sys_argv st = argv0 :: rest ->
  In (script_dir (cwd st) argv0) (dirs st) ->
  find_packages (entered st (script_dir (cwd st) argv0)) = (inr pkgs, st3) ->
  setup (make_metadata long_description pkgs (sys_argv st)) st3 = (res, st4) ->
  sys_path st4 = p :: ps ->
  In (cwd st) (dirs st4) ->
  setup_package script_dir find_packages setup long_description st
  = (passed_on res,
     {| cwd := cwd st; sys_path := ps; sys_argv := sys_argv st4;
        dirs := dirs st4 |}).
Proof.
  intros Hargv Hsrc Hfind Hsetup Hpath Hold.
  apply mem_In in Hsrc. apply mem_In in Hold.
  unfold setup_package. rewrite Hargv. unfold chdir at 1. rewrite Hsrc.
  unfold sys_path_insert_0. cbn.
  unfold entered in Hfind. rewrite Hfind, Hsetup.
  destruct res as [e|[]]; unfold finally_restore, del_sys_path_0;
    rewrite Hpath; unfold chdir; cbn; rewrite Hold; reflexivity.
Qed.

(** X19.  The metadata are built before the [try]: when [find_packages]
    raises, its exception is passed on and nothing is restored, the
    process stays as [find_packages] left it, in the script's directory
    and with that directory at the head of [sys.path] unless
    [find_packages] changed them. *)
Theorem setup_package_leaks_when_find_packages_raises st argv0 rest e st3 :
  sys_argv st = argv0 :: rest ->
  In (script_dir (cwd st) argv0) (dirs st) ->
  find_packages (entered st (script_dir (cwd st) argv0)) = (inl e, st3) ->
  setup_package script_dir find_packages setup long_description st
  = (inl (Raised e), st3).
Proof.
  intros Hargv Hsrc Hfind. apply mem_In in Hsrc.
  unfold setup_package. rewrite Hargv. unfold chdir. rewrite Hsrc.
  unfold sys_path_insert_0. cbn. unfold entered in Hfind. now rewrite Hfind.
Qed.

(** X20.  With an empty command line, or when the directory of the script
    does not exist, [setup_package] raises ([IndexError], respectively
    [FileNotFoundError] on that directory) and leaves the process as it
    was. *)
Theorem setup_package_early_failure st :
  match sys_argv st with
  | [] => True
  | argv0 :: _ => mem (script_dir (cwd st) argv0) (dirs st) = false
  end ->
  setup_package script_dir find_packages setup long_description st
  = (inl match sys_argv st with
         | [] => ArgvIndexError
         | argv0 :: _ => FileNotFoundError (script_dir (cwd st) argv0)
         end, st).
Proof.
  unfold setup_package. destruct (sys_argv st) as [|argv0 rest];
    [reflexivity|].
  intros H. unfold chdir. now rewrite H.
Qed.

(** X21.  When [setup] leaves [sys.path] empty, the [IndexError] of line
    80 takes the place of whatever [setup] ended with, and line 81 does
    not run: the working directory is not restored. *)
Theorem setup_package_empty_path_hides_outcome
    st argv0 rest pkgs st3 res st4 :
  sys_argv st = argv0 :: rest ->
  In (script_dir (cwd st) argv0) (dirs st) ->
  find_packages (entered st (script_dir (cwd st) argv0)) = (inr pkgs, st3) ->
  setup (make_metadata long_description pkgs (sys_argv st)) st3 = (res, st4) ->
  sys_path st4 = [] ->
  setup_package script_dir find_packages setup long_description st
  = (inl PathIndexError, st4).
Proof.
  intros Hargv Hsrc Hfind Hsetup Hpath. apply mem_In in Hsrc.
  unfold setup_package. rewrite Hargv. unfold chdir at 1. rewrite Hsrc.
  unfold sys_path_insert_0. cbn.
  unfold entered in Hfind. rewrite Hfind, Hsetup.
  destruct res as [e|[]]; unfold finally_restore, del_sys_path_0;
    now rewrite Hpath.
Qed.

End SetupPackageFacts.

(** ** Witnesses of the properties beyond the claims *)

(** X3 at an input. *)
Lemma st_scan_case_insensitive_witness :
  run Stub.perform
    (st_scan 2 1 (LikTuple [PyStr "POISSON"]) (Some 3) (Some 4)
             true)%positive Stub.h0
  = run Stub.perform
      (st_scan 2 1 (LikTuple [PyStr "Poisson"]) (Some 3) (Some 4)
               true)%positive Stub.h0.
Proof.
  apply (st_scan_case_insensitive Stub.heap Stub.perform).
  reflexivity.
Defined.

(** X6 at an input: a Binomial scan with trial counts and [K]. *)
Lemma st_scan_valid_input_stops_at_factory_witness :
  let r := run Stub.perform
             (st_scan 2 1 (LikTuple [PyStr "binomial"; PyObj 4]) (Some 3)
                      None true)%positive Stub.h0 in
  outcome r = inl (NameError "ST_ScanResultFactory")
  /\ final r
     = ((7, [float_1_0; Stub.two]) :: (6, [float_1_0; Stub.two; Stub.two;
                                           float_1_0])
        :: (5, [float_1_0; float_1_0]) :: Stub.h0)%positive
  /\ calls_of (trace r)
     = [conform_dataset 1 None 2 (Some 3); is_all_finite 1; is_all_finite 5;
        is_all_finite 3; economic_qs 3;
        normalise_extreme_values 1 ("binomial", [PyObj 4])]%positive.
Proof.
  apply (st_scan_valid_input_stops_at_factory Stub.heap Stub.perform
           2 1 (LikTuple [PyStr "binomial"; PyObj 4]) (Some 3) None true
           Stub.h0 ("binomial", [PyObj 4])
           {| data_y := 1; data_M := 5; data_G := 2; data_K := Some 3 |}
           6 7)%positive.
  - reflexivity.
  - cbn. repeat (eexists; split; [reflexivity|]). reflexivity.
Defined.

(** X10 at an input: the scanner answers three likelihoods and two effect
    sizes. *)
Lemma loop_pairs_statistics_by_position_witness :
  let r := ScanResultFactory ("normal", []) 4%positive 2%positive in
  let r' := add_tests r (enumerate (zip [10; 11; 12] [20; 21]))%Z in
  nth_error (candidates r') (List.length (candidates r) + 1)
  = Some {| index := 1; effect_size := 21%Z;
            alt_log_marginal_likelihood := 11%Z |}
  /\ List.length (candidates r')
     = List.length (candidates r) + Nat.min 3 2
  /\ firstn (List.length (candidates r)) (candidates r') = candidates r
  /\ null r' = null r.
Proof.
  apply (loop_pairs_statistics_by_position
           (ScanResultFactory ("normal", []) 4%positive 2%positive)
           [10; 11; 12]%Z [20; 21]%Z 1 11%Z 21%Z); reflexivity.
Defined.

(** X13 at an input. *)
Lemma dim_axis_is_position_witness : 1 = 1.
Proof.
  apply (dim_axis_is_position "covariance" ["sample_0"; "sample_1"] 1
           "sample_1" 1); reflexivity.
Defined.

(** X14 at an input. *)
Lemma only_inter_has_no_axis_witness :
  "inter" = "inter" /\ ("inter1" = "inter0" \/ "inter1" = "inter1").
Proof.
  apply (only_inter_has_no_axis "inter1" ["sample"; "inter"] "inter").
  - reflexivity.
  - cbn. auto.
  - reflexivity.
Defined.

(** X18 at an input: [setup] raises, the process is as before. *)
Lemma setup_package_restores_witness :
  setup_package SetupStub.script_dir SetupStub.find_packages SetupStub.setup
    "A flexible and fast mixed model toolbox." SetupStub.st0
  = (inl (Raised "DistutilsError"), SetupStub.st0).
Proof.
  apply (setup_package_restores SetupStub.script_dir SetupStub.find_packages
           SetupStub.setup "A flexible and fast mixed model toolbox."
           SetupStub.st0 "setup.py" ["test"] ["limix"]
           (entered SetupStub.st0 "/src") (inl "DistutilsError")
           (entered SetupStub.st0 "/src") "/src" ["/usr/lib/python"]);
    try reflexivity; cbn; auto.
Defined.

(** X19 at an input. *)
Lemma setup_package_leaks_when_find_packages_raises_witness :
  setup_package SetupStub.script_dir SetupStub.failing_find_packages
    SetupStub.setup "" SetupStub.st0
  = (inl (Raised "OSError"), entered SetupStub.st0 "/src").
Proof.
  apply (setup_package_leaks_when_find_packages_raises SetupStub.script_dir
           SetupStub.failing_find_packages SetupStub.setup ""
           SetupStub.st0 "setup.py" ["test"] "OSError"
           (entered SetupStub.st0 "/src")); try reflexivity; cbn; auto.
Defined.

(** X20 at an input: the script's directory is gone. *)
Lemma setup_package_early_failure_witness :
  let st := {| cwd := "/home"; sys_path := []; sys_argv := ["setup.py"];
               dirs := ["/home"] |} in
  setup_package SetupStub.script_dir SetupStub.find_packages SetupStub.setup
    "" st
  = (inl (FileNotFoundError "/src"), st).
Proof.
  apply (setup_package_early_failure SetupStub.script_dir
           SetupStub.find_packages SetupStub.setup ""
           {| cwd := "/home"; sys_path := []; sys_argv := ["setup.py"];
              dirs := ["/home"] |}).
  reflexivity.
Defined.

(** X21 at an input. *)
Lemma setup_package_empty_path_hides_outcome_witness :
  setup_package SetupStub.script_dir SetupStub.find_packages
    SetupStub.clearing_setup "" SetupStub.st0
  = (inl PathIndexError,
     {| cwd := "/src"; sys_path := []; sys_argv := ["setup.py"; "test"];
        dirs := ["/home"; "/src"] |}).
Proof.
  apply (setup_package_empty_path_hides_outcome SetupStub.script_dir
           SetupStub.find_packages SetupStub.clearing_setup ""
           SetupStub.st0 "setup.py" ["test"] ["limix"]
           (entered SetupStub.st0 "/src") (inr tt)); try reflexivity.
  cbn. auto.
Defined.

(** X22.  The toggle reaches the collaborators as the caller gave it:
    along any run of lines 199 to 202, every fit and every scan is called
    with the caller's [verbose]. *)
Theorem verbose_is_passed_on
    (heap : Type)
    (perform : forall c : call, heap -> (foreign + ret_type c) * heap)
    r y lik M K QS G verbose h :
  Forall (fun c => verbose_of c = None \/ verbose_of c = Some verbose)
         (calls_of (trace (run perform
                             (dispatch r y lik M K QS G verbose) h))).
Proof.
  apply run_nodes.
  unfold dispatch, _perform_lmm, _perform_glmm.
  destruct (fst lik =? "normal")%string; walk; resolve_names; cbn; auto.
Qed.
